(** * German Power Market Monitor Dashboard: data pipeline

    A shallow embedding of the data pipeline of the notebook
    [[24W]CS_plotly_Dash.ipynb]: the two loaders [load_generation_data] and
    [load_price_data], the date filter and the summary statistics computed
    by the callbacks [update_generation_graph] and [update_price_graph].

    The notebook is written against pandas.  The part of pandas the
    notebook relies on is modelled first (module [Py] for the Python
    builtins [str] and [float], module [Pandas] for [Series] and
    [DataFrame]); the notebook's own functions follow, line by line. *)

From Stdlib Require Import List String Ascii Bool Arith ZArith QArith Qround Lia.
Import ListNotations.

Set Implicit Arguments.

(** ** Exceptions *)

(** The Python exceptions the pipeline can raise. *)
Inductive exn : Type :=
| FileNotFoundError
| KeyError
| ValueError
| AttributeError
| IndexError
| TypeError.

Inductive result (A : Type) : Type :=
| Ok (a : A)
| Raise (e : exn).

Arguments Ok {A} a.
Arguments Raise {A} e.

Definition bind {A B : Type} (r : result A) (k : A -> result B) : result B :=
  match r with
  | Ok a => k a
  | Raise e => Raise e
  end.

Declare Scope result_scope.
Delimit Scope result_scope with result.
Notation "x <- e ;; k" := (bind e (fun x => k))
  (at level 61, e at next level, right associativity) : result_scope.
Open Scope result_scope.

(** A Python [for] loop (or comprehension) whose body may raise. *)
Fixpoint mapM {A B : Type} (f : A -> result B) (l : list A) : result (list B) :=
  match l with
  | [] => Ok []
  | a :: l' =>
      b <- f a ;;
      bs <- mapM f l' ;;
      Ok (b :: bs)
  end.

Definition succeeds {A : Type} (r : result A) : Prop := exists a, r = Ok a.
Definition fails {A : Type} (r : result A) : Prop := exists e, r = Raise e.

(** ** Python builtins *)

Module Py.

Open Scope string_scope.

(** *** [str] *)

(** [sub in s]. *)
Fixpoint contains (sub s : string) : bool :=
  String.prefix sub s ||
  match s with
  | EmptyString => false
  | String _ s' => contains sub s'
  end.

(** [s.split(sep)[0]] for a non-empty separator: the text before the
    first occurrence of [sep], the whole of [s] when there is none. *)
Fixpoint split_item0 (sep s : string) : string :=
  if String.prefix sep s then EmptyString
  else match s with
       | EmptyString => EmptyString
       | String c s' => String c (split_item0 sep s')
       end.

(** [s.replace(old, new)] for a one-character [old]. *)
Fixpoint replace (old : ascii) (new : string) (s : string) : string :=
  match s with
  | EmptyString => EmptyString
  | String c s' =>
      if Ascii.eqb c old then new ++ replace old new s'
      else String c (replace old new s')
  end.

(** *** [float] *)

(** A Python float: a finite value, an infinity or NaN.  Finite values
    are kept as exact rationals in lowest terms: the range of binary64 is
    modelled, the rounding of the last digits within it is not. *)
Inductive float : Type :=
| Finite (q : Q)
| Inf (negative : bool)
| NaN.

Definition of_Z (z : Z) : float := Finite (inject_Z z).

Definition isnan (x : float) : bool :=
  match x with NaN => true | _ => false end.

(** The range of binary64.  A result whose magnitude reaches
    [2^1024 - 2^970], half-way between the greatest float and [2^1024],
    is an infinity; one whose magnitude does not exceed [2^-1075], half
    of the least positive float, is zero. *)
Definition overflow_bound : Q := Eval vm_compute in inject_Z (2 ^ 1024 - 2 ^ 970).

Definition underflow_bound : Q := Eval vm_compute in Qmake 1 (2 ^ 1075).

Definition finite (q : Q) : float :=
  if Qle_bool overflow_bound q then Inf false
  else if Qle_bool q (- overflow_bound) then Inf true
  else if Qle_bool (- underflow_bound) q && Qle_bool q underflow_bound then Finite 0
  else Finite q.

Definition add (x y : float) : float :=
  match x, y with
  | NaN, _ | _, NaN => NaN
  | Finite a, Finite b => finite (Qred (a + b))
  | Finite _, Inf s | Inf s, Finite _ => Inf s
  | Inf s, Inf t => if Bool.eqb s t then Inf s else NaN
  end.

(** Division by a positive count. *)
Definition div_count (x : float) (n : nat) : float :=
  match x with
  | Finite a => finite (Qred (a / inject_Z (Z.of_nat n)))
  | _ => x
  end.

(** [x <= y] on floats that are not NaN. *)
Definition le (x y : float) : bool :=
  match x, y with
  | Finite a, Finite b => Qle_bool a b
  | Inf true, _ => true
  | _, Inf false => true
  | _, _ => false
  end.

Definition max (x y : float) : float := if le x y then y else x.
Definition min (x y : float) : float := if le x y then x else y.

(** [float(s)] for a [str] argument, over the ASCII characters.

    The text is stripped of surrounding whitespace, which for [float]
    is the space and the characters 9 to 13 (tab, line feed, vertical
    tab, form feed, carriage return); underscores are accepted between
    two digits only and dropped; what is left must be an optional sign
    followed by [inf], [infinity] or [nan] (in any case), or by a decimal
    numeral with an optional exponent. *)

Definition isspace (c : ascii) : bool :=
  let n := nat_of_ascii c in
  ((9 <=? n) && (n <=? 13) || (n =? 32))%nat.

Definition isdigit (c : ascii) : bool :=
  let n := nat_of_ascii c in ((48 <=? n) && (n <=? 57))%nat.

Definition digit_value (c : ascii) : Z := Z.of_nat (nat_of_ascii c - 48).

Fixpoint lstrip (s : string) : string :=
  match s with
  | EmptyString => EmptyString
  | String c s' => if isspace c then lstrip s' else s
  end.

Fixpoint rstrip (s : string) : string :=
  match s with
  | EmptyString => EmptyString
  | String c s' =>
      match rstrip s' with
      | EmptyString => if isspace c then EmptyString else String c EmptyString
      | r => String c r
      end
  end.

Definition strip (s : string) : string := lstrip (rstrip s).

(** The underscore rule: an underscore must follow a digit and must be
    followed by a digit.  [prev] is the previous character, if any. *)
Fixpoint drop_underscores (prev : option ascii) (s : string) : option string :=
  match s with
  | EmptyString =>
      match prev with
      | Some "_"%char => None
      | _ => Some EmptyString
      end
  | String c s' =>
      if Ascii.eqb c "_" then
        match prev with
        | Some p => if isdigit p then drop_underscores (Some c) s' else None
        | None => None
        end
      else
        match prev with
        | Some "_"%char =>
            if isdigit c
            then option_map (String c) (drop_underscores (Some c) s')
            else None
        | _ => option_map (String c) (drop_underscores (Some c) s')
        end
  end.

(** Leading sign: [true] for a minus sign. *)
Definition take_sign (s : string) : bool * string :=
  match s with
  | String "-" s' => (true, s')
  | String "+" s' => (false, s')
  | _ => (false, s)
  end.

(** Leading digits of [s], accumulated onto [acc]: the value, the
    number of digits read and the rest of the text. *)
Fixpoint take_digits (s : string) (acc : Z) (n : nat) : Z * nat * string :=
  match s with
  | String c s' =>
      if isdigit c then take_digits s' (10 * acc + digit_value c)%Z (S n)
      else (acc, n, s)
  | EmptyString => (acc, n, s)
  end.

Definition lower (c : ascii) : ascii :=
  let n := nat_of_ascii c in
  if ((65 <=? n) && (n <=? 90))%nat then ascii_of_nat (n + 32) else c.

Fixpoint lowercase (s : string) : string :=
  match s with
  | EmptyString => EmptyString
  | String c s' => String (lower c) (lowercase s')
  end.

(** The exponent part: empty, or [e]/[E], an optional sign and at
    least one digit, up to the end of the text. *)
Definition parse_exponent (s : string) : option Z :=
  match s with
  | EmptyString => Some 0%Z
  | String c s' =>
      if Ascii.eqb (lower c) "e" then
        let '(neg, s1) := take_sign s' in
        match take_digits s1 0 0 with
        | (_, O, _) => None
        | (e, S _, EmptyString) => Some (if neg then (- e)%Z else e)
        | (_, S _, String _ _) => None
        end
      else None
  end.

(** [m * 10 ^ k] as a rational in lowest terms. *)
Definition scale10 (m k : Z) : Q :=
  if (0 <=? k)%Z then inject_Z (m * 10 ^ k)
  else Qred (Qmake m (Z.to_pos (10 ^ (- k)))).

Definition parse_decimal (s : string) : option Q :=
  let '(ip, ni, s1) := take_digits s 0 0 in
  let '(m, nf, s2) :=
    match s1 with
    | String "." r => take_digits r ip 0
    | _ => (ip, O, s1)
    end in
  match (ni + nf)%nat with
  | O => None
  | S _ =>
      match parse_exponent s2 with
      | Some e => Some (scale10 m (e - Z.of_nat nf))
      | None => None
      end
  end.

Definition parse_unsigned (s : string) : option float :=
  let w := lowercase s in
  if String.eqb w "inf" || String.eqb w "infinity" then Some (Inf false)
  else if String.eqb w "nan" then Some NaN
  else option_map finite (parse_decimal s).

Definition negate (x : float) : float :=
  match x with
  | Finite q => Finite (Qred (- q))
  | Inf s => Inf (negb s)
  | NaN => NaN
  end.

Definition float_of_str (s : string) : result float :=
  match drop_underscores None (strip s) with
  | None => Raise ValueError
  | Some t =>
      let '(neg, u) := take_sign t in
      match parse_unsigned u with
      | Some x => Ok (if neg then negate x else x)
      | None => Raise ValueError
      end
  end.

End Py.

(** ** The part of pandas the notebook uses *)

Module Pandas.

Open Scope string_scope.

(** An element of an [object] column as [read_csv] builds it: the text
    of a field, or a float ([NaN] for an empty field). *)
Inductive pyobj : Type :=
| PStr (s : string)
| PFloat (x : Py.float).

(** A [Series] with its dtype: [object], [float64] (the integer dtypes
    are not told apart from it) or [datetime64[ns]], where [None] is
    [NaT] and a timestamp is a number of nanoseconds. *)
Inductive Series : Type :=
| SObject (l : list pyobj)
| SFloat (l : list Py.float)
| SDatetime (l : list (option Z)).

(** A value taken out of a [Series]. *)
Inductive scalar : Type :=
| Str (s : string)
| Float (x : Py.float)
| Timestamp (t : Z)
| NaT.

Definition scalar_of_obj (o : pyobj) : scalar :=
  match o with
  | PStr s => Str s
  | PFloat x => Float x
  end.

Definition scalar_of_time (t : option Z) : scalar :=
  match t with
  | Some t => Timestamp t
  | None => NaT
  end.

Definition cells (s : Series) : list scalar :=
  match s with
  | SObject l => map scalar_of_obj l
  | SFloat l => map Float l
  | SDatetime l => map scalar_of_time l
  end.

Definition len (s : Series) : nat := List.length (cells s).

(** [s.iloc[0]]. *)
Definition iloc0 (s : Series) : result scalar :=
  match cells s with
  | [] => Raise IndexError
  | c :: _ => Ok c
  end.

(** [isinstance(v, str)]. *)
Definition isinstance_str (v : scalar) : bool :=
  match v with
  | Str _ => true
  | _ => false
  end.

(** [s.replace(to_replace, value)] with two [str] scalars: the elements
    equal to [to_replace] are replaced, whole element only. *)
Definition replace_obj (to_replace value : string) (o : pyobj) : pyobj :=
  match o with
  | PStr t => if String.eqb t to_replace then PStr value else o
  | PFloat _ => o
  end.

Definition replace (to_replace value : string) (s : Series) : Series :=
  match s with
  | SObject l => SObject (map (replace_obj to_replace value) l)
  | _ => s
  end.

Definition is_str (o : pyobj) : bool :=
  match o with PStr _ => true | PFloat _ => false end.

Definition is_missing (o : pyobj) : bool :=
  match o with PFloat x => Py.isnan x | PStr _ => false end.

(** The [.str] accessor exists on an [object] column that holds some
    text or nothing but missing values. *)
Definition has_str_accessor (s : Series) : bool :=
  match s with
  | SObject l => existsb is_str l || forallb is_missing l
  | _ => false
  end.

(** [s.str.replace(pat, repl)] for a one-character pattern; an element
    that is not text becomes [NaN]. *)
Definition str_replace (pat : ascii) (repl : string) (s : Series) : result Series :=
  match s with
  | SObject l =>
      if has_str_accessor s then
        Ok (SObject (map (fun o =>
                            match o with
                            | PStr t => PStr (Py.replace pat repl t)
                            | PFloat _ => PFloat Py.NaN
                            end) l))
      else Raise AttributeError
  | _ => Raise AttributeError
  end.

Definition float_of_obj (o : pyobj) : result Py.float :=
  match o with
  | PStr t => Py.float_of_str t
  | PFloat x => Ok x
  end.

(** [s.astype(float)]. *)
Definition astype_float (s : Series) : result Series :=
  match s with
  | SObject l => l' <- mapM float_of_obj l ;; Ok (SFloat l')
  | SFloat l => Ok (SFloat l)
  | SDatetime _ => Raise TypeError
  end.

(** *** Boolean indexing *)

(** The elements of [l] at the positions where [mask] is [true]. *)
Fixpoint select {A : Type} (mask : list bool) (l : list A) : list A :=
  match mask, l with
  | b :: mask', a :: l' => if b then a :: select mask' l' else select mask' l'
  | _, _ => []
  end.

Definition Series_loc (mask : list bool) (s : Series) : Series :=
  match s with
  | SObject l => SObject (select mask l)
  | SFloat l => SFloat (select mask l)
  | SDatetime l => SDatetime (select mask l)
  end.

(** *** Reductions *)

(** The numbers a reduction works on.  Text and timestamps are refused:
    [mean] does not reduce text, and [float] does not convert the
    [Timestamp] or [NaT] that reducing a datetime column gives.  (The
    notebook sums the converted columns of the generation table only;
    what [sum] makes of a text column is not modelled beyond this
    refusal.) *)
Definition numeric_values (s : Series) : result (list Py.float) :=
  match s with
  | SFloat l => Ok l
  | SObject l =>
      if existsb is_str l then Raise TypeError
      else mapM float_of_obj l
  | SDatetime _ => Raise TypeError
  end.

(** [skipna=True], the default of every reduction. *)
Definition dropna (l : list Py.float) : list Py.float :=
  filter (fun x => negb (Py.isnan x)) l.

Definition fsum (l : list Py.float) : Py.float :=
  fold_left Py.add l (Py.of_Z 0).

(** [float(s.sum())]: the sum of no value is [0.0]. *)
Definition sum (s : Series) : result Py.float :=
  l <- numeric_values s ;;
  Ok (fsum (dropna l)).

(** [float(s.mean())]: the mean of no value is [NaN]. *)
Definition mean (s : Series) : result Py.float :=
  l <- numeric_values s ;;
  Ok (match dropna l with
      | [] => Py.NaN
      | v => Py.div_count (fsum v) (List.length v)
      end).

(** [float(s.max())] and [float(s.min())]: [NaN] when there is no value. *)
Definition max (s : Series) : result Py.float :=
  l <- numeric_values s ;;
  Ok (match dropna l with
      | [] => Py.NaN
      | x :: v => fold_left Py.max v x
      end).

Definition min (s : Series) : result Py.float :=
  l <- numeric_values s ;;
  Ok (match dropna l with
      | [] => Py.NaN
      | x :: v => fold_left Py.min v x
      end).

(** *** DataFrame *)

(** The columns of a frame in their order, each with its label.  The
    model covers frames whose labels are pairwise distinct: a label
    names the first column that carries it. *)
Definition DataFrame : Type := list (string * Series).

Definition columns (df : DataFrame) : list string := map fst df.

(** [df[key]]. *)
Fixpoint getitem (df : DataFrame) (key : string) : result Series :=
  match df with
  | [] => Raise KeyError
  | (k, s) :: df' => if String.eqb k key then Ok s else getitem df' key
  end.

(** [df[key] = s]: the column is replaced where it stands, a new label
    is added at the end. *)
Fixpoint setitem (df : DataFrame) (key : string) (s : Series) : DataFrame :=
  match df with
  | [] => [(key, s)]
  | (k, s0) :: df' =>
      if String.eqb k key then (k, s) :: df'
      else (k, s0) :: setitem df' key s
  end.

(** [df.columns = [f(col) for col in df.columns]]. *)
Definition rename_columns (f : string -> string) (df : DataFrame) : DataFrame :=
  map (fun c => (f (fst c), snd c)) df.

Fixpoint insert_sorted (k : string) (l : list string) : list string :=
  match l with
  | [] => [k]
  | h :: t => if String.leb k h then k :: l else h :: insert_sorted k t
  end.

Definition sorted (l : list string) : list string :=
  fold_right insert_sorted [] l.

Definition mem (k : string) (l : list string) : bool :=
  existsb (String.eqb k) l.

(** [df.columns.difference(other)]: the labels that are not in [other],
    each once, sorted. *)
Definition columns_difference (df : DataFrame) (other : list string) : list string :=
  sorted (nodup string_dec (filter (fun k => negb (mem k other)) (columns df))).

(** [df.loc[mask]] for a boolean mask over the rows. *)
Definition loc (mask : list bool) (df : DataFrame) : DataFrame :=
  map (fun c => (fst c, Series_loc mask (snd c))) df.

(** *** Rows *)

(** A row: the value of every column at one position. *)
Definition row : Type := list (string * scalar).

Definition heads (cols : list (string * list scalar)) : row :=
  flat_map (fun c => match snd c with
                     | [] => []
                     | v :: _ => [(fst c, v)]
                     end) cols.

Definition tails (cols : list (string * list scalar)) : list (string * list scalar) :=
  map (fun c => (fst c, tl (snd c))) cols.

Fixpoint transpose (n : nat) (cols : list (string * list scalar)) : list row :=
  match n with
  | O => []
  | S n' => heads cols :: transpose n' (tails cols)
  end.

Definition nrows (df : DataFrame) : nat :=
  match df with
  | [] => O
  | (_, s) :: _ => len s
  end.

Definition cell_columns (df : DataFrame) : list (string * list scalar) :=
  map (fun c => (fst c, cells (snd c))) df.

(** The rows of a frame, first to last. *)
Definition rows (df : DataFrame) : list row :=
  transpose (nrows df) (cell_columns df).

(** [r[key]]. *)
Fixpoint row_get (r : row) (key : string) : option scalar :=
  match r with
  | [] => None
  | (k, v) :: r' => if String.eqb k key then Some v else row_get r' key
  end.

End Pandas.

(** ** The files and the process state *)

(** What the notebook reads and the module-level variables it keeps:
    [files] gives, for a path, the frame [pd.read_csv(path, sep=';')]
    returns ([None] when there is no such file); [initial_gen_df] and
    [initial_price_df] are the two tables loaded once when the module is
    run. *)
Record World : Type := mkWorld {
  files : string -> option Pandas.DataFrame;
  initial_gen_df : option Pandas.DataFrame;
  initial_price_df : option Pandas.DataFrame
}.

(** A computation that reads and writes the [World] and may raise. *)
Definition IO (A : Type) : Type := World -> result A * World.

Definition io_bind {A B : Type} (m : IO A) (k : A -> IO B) : IO B :=
  fun w =>
    match m w with
    | (Ok a, w') => k a w'
    | (Raise e, w') => (Raise e, w')
    end.


Definition lift {A : Type} (r : result A) : IO A := fun w => (r, w).

Declare Scope io_scope.
Delimit Scope io_scope with io.
Notation "x <~ e ;; k" := (io_bind e (fun x => k))
  (at level 61, e at next level, right associativity) : io_scope.
Open Scope io_scope.

(** ** The notebook *)

Import Pandas.
Open Scope string_scope.

Definition generation_csv : string :=
  "Actual_generation_202411010000_202412010000_Day.csv".

Definition price_csv : string :=
  "Day-ahead_prices_202411010000_202412010000_Day.csv".

(** [pd.read_csv(path, sep=';')]. *)
Definition read_csv (path : string) : IO DataFrame :=
  fun w =>
    match files w path with
    | Some df => (Ok df, w)
    | None => (Raise FileNotFoundError, w)
    end.

(** [col.split(' [')[0] if '[' in col else col]. *)
Definition clean_header (col : string) : string :=
  if Py.contains "[" col then Py.split_item0 " [" col else col.

(** A [for] loop over [l] that updates a local variable and may raise. *)
Fixpoint for_each {A S : Type} (body : S -> A -> result S) (l : list A) (st : S)
  : result S :=
  match l with
  | [] => Ok st
  | a :: l' => st' <- body st a ;; for_each body l' st'
  end.

(** The color of each energy source. *)
Definition colors : list (string * string) :=
  [ ("Biomass", "#8884d8");
    ("Hydropower", "#82ca9d");
    ("Wind offshore", "#8dd1e1");
    ("Wind onshore", "#82b1ff");
    ("Photovoltaics", "#ffc658");
    ("Other renewable", "#a4de6c");
    ("Nuclear", "#d88484");
    ("Lignite", "#97746a");
    ("Hard coal", "#666666");
    ("Fossil gas", "#ff8a65");
    ("Hydro pumped storage", "#ba68c8");
    ("Other conventional", "#78909c") ].

(** [d[key]] on a [dict] with [str] keys. *)
Fixpoint dict_get {V : Type} (d : list (string * V)) (key : string) : result V :=
  match d with
  | [] => Raise KeyError
  | (k, v) :: d' => if String.eqb k key then Ok v else dict_get d' key
  end.

(** A trace of a figure: [go.Scatter(x=..., y=..., name=..., ...)]. *)
Record Trace : Type := mkTrace {
  trace_name : string;
  trace_x : Series;
  trace_y : Series;
  trace_fillcolor : option string
}.

(** The numbers shown for one country in the price statistics. *)
Record PriceStats : Type := mkPriceStats {
  avg_price : Py.float;
  max_price : Py.float;
  min_price : Py.float
}.

(** [a & b] on two boolean masks over the same rows. *)
Definition mask_and (a b : list bool) : list bool :=
  map (fun p => andb (fst p) (snd p)) (combine a b).

Section Notebook.

(** The two date conversions of pandas are taken as given:
    [pd.to_datetime] on a column, and the conversion of the [str] a
    datetime column is compared with.  Each raises or gives timestamps,
    [None] being [NaT]. *)
Variable pd_to_datetime : Series -> result (list (option Z)).
Variable pd_Timestamp : string -> result (option Z).

(** *** Loading *)

(** What the loop of [load_generation_data] does to one column:
    [df[col].replace('-', '0')], then [.str.replace(',', '')] and
    [.astype(float)]. *)
Definition normalize_generation (s : Series) : result Series :=
  let s := replace "-" "0" s in
  s <- str_replace "," "" s ;;
  astype_float s.

(** What the loop of [load_price_data] does to one column: the
    replacement of the marker, then, when the first value is a [str],
    [.str.replace(',', '.')] and [.astype(float)]. *)
Definition normalize_price (s : Series) : result Series :=
  let s := replace "-" "0" s in
  v <- iloc0 s ;;
  if isinstance_str v then
    s <- str_replace "," "." s ;;
    astype_float s
  else Ok s.

(** The body of [load_generation_data] after [read_csv]. *)
Definition process_generation_data (df : DataFrame) : result DataFrame :=
  start <- getitem df "Start date" ;;
  start <- pd_to_datetime start ;;
  let df := setitem df "Start date" (SDatetime start) in
  let df := rename_columns clean_header df in
  let numeric_columns := columns_difference df ["Start date"; "End date"] in
  for_each
    (fun df col =>
       s <- getitem df col ;;
       let df := setitem df col (replace "-" "0" s) in
       s <- getitem df col ;;
       s <- str_replace "," "" s ;;
       s <- astype_float s ;;
       Ok (setitem df col s))
    numeric_columns df.

Definition load_generation_data : IO DataFrame :=
  df <~ read_csv generation_csv ;;
  lift (process_generation_data df).

(** The body of [load_price_data] after [read_csv]. *)
Definition process_price_data (df : DataFrame) : result DataFrame :=
  start <- getitem df "Start date" ;;
  start <- pd_to_datetime start ;;
  let df := setitem df "Start date" (SDatetime start) in
  let df := rename_columns clean_header df in
  let numeric_columns := columns_difference df ["Start date"; "End date"] in
  for_each
    (fun df col =>
       s <- getitem df col ;;
       let df := setitem df col (replace "-" "0" s) in
       s <- getitem df col ;;
       v <- iloc0 s ;;
       if isinstance_str v then
         s <- getitem df col ;;
         s <- str_replace "," "." s ;;
         s <- astype_float s ;;
         Ok (setitem df col s)
       else Ok df)
    numeric_columns df.

Definition load_price_data : IO DataFrame :=
  df <~ read_csv price_csv ;;
  lift (process_price_data df).

(** The module-level statements that load the two initial tables. *)
Definition load_initial_data : IO unit :=
  gen <~ load_generation_data ;;
  price <~ load_price_data ;;
  fun w => (Ok tt, mkWorld (files w) (Some gen) (Some price)).

(** *** Filtering *)

(** [s >= other] and [s <= other] for a [str] scalar [other]: a
    datetime column converts [other] to a timestamp, and [NaT] compares
    false; text compares as text. *)
Definition compare_with (cmp_time : Z -> Z -> bool) (cmp_str : string -> string -> bool)
           (s : Series) (other : string) : result (list bool) :=
  match s with
  | SDatetime l =>
      b <- pd_Timestamp other ;;
      Ok (map (fun t => match t, b with
                        | Some t, Some b => cmp_time t b
                        | _, _ => false
                        end) l)
  | SObject l =>
      mapM (fun o => match o with
                     | PStr t => Ok (cmp_str t other)
                     | PFloat _ => Raise TypeError
                     end) l
  | SFloat _ => Raise TypeError
  end.

Definition Series_ge : Series -> string -> result (list bool) :=
  compare_with Z.geb (fun a b => String.leb b a).

Definition Series_le : Series -> string -> result (list bool) :=
  compare_with Z.leb String.leb.

(** [(df['Start date'] >= start_date) & (df['Start date'] <= end_date)]. *)
Definition date_mask (df : DataFrame) (start_date end_date : string)
  : result (list bool) :=
  s1 <- getitem df "Start date" ;;
  ge <- Series_ge s1 start_date ;;
  s2 <- getitem df "Start date" ;;
  le <- Series_le s2 end_date ;;
  Ok (mask_and ge le).

(** [df.loc[mask]] for the mask of the date range. *)
Definition filter_by_date (df : DataFrame) (start_date end_date : string)
  : result DataFrame :=
  mask <- date_mask df start_date end_date ;;
  Ok (loc mask df).

(** *** The generation callback *)

(** The loop that fills [summary_stats]: for every selected source,
    [float(df_filtered[source].sum())]. *)
Definition generation_summary (df_filtered : DataFrame) (selected_sources : list string)
  : result (list (string * Py.float)) :=
  mapM (fun source =>
          s <- getitem df_filtered source ;;
          total_generation <- Pandas.sum s ;;
          Ok (source, total_generation))
       selected_sources.

Definition generation_figure (df_filtered : DataFrame) (selected_sources : list string)
  : result (list Trace) :=
  mapM (fun source =>
          x <- getitem df_filtered "Start date" ;;
          y <- getitem df_filtered source ;;
          c <- dict_get colors source ;;
          Ok (mkTrace source x y (Some c)))
       selected_sources.

Definition update_generation_graph
           (selected_sources : list string) (start_date end_date : string)
  : IO (list Trace * list (string * Py.float)) :=
  df <~ load_generation_data ;;
  lift (df_filtered <- filter_by_date df start_date end_date ;;
        fig <- generation_figure df_filtered selected_sources ;;
        summary_stats <- generation_summary df_filtered selected_sources ;;
        Ok (fig, summary_stats)).

(** *** The price callback *)

(** The loop that fills [stats]: for every selected country the mean,
    the maximum and the minimum of its column. *)
Definition price_stats (df_filtered : DataFrame) (selected_countries : list string)
  : result (list (string * PriceStats)) :=
  mapM (fun country =>
          s <- getitem df_filtered country ;;
          avg <- Pandas.mean s ;;
          s <- getitem df_filtered country ;;
          mx <- Pandas.max s ;;
          s <- getitem df_filtered country ;;
          mn <- Pandas.min s ;;
          Ok (country, mkPriceStats avg mx mn))
       selected_countries.

Definition price_figure (df_filtered : DataFrame) (selected_countries : list string)
  : result (list Trace) :=
  mapM (fun country =>
          x <- getitem df_filtered "Start date" ;;
          y <- getitem df_filtered country ;;
          Ok (mkTrace country x y None))
       selected_countries.

Definition update_price_graph
           (selected_countries : list string) (start_date end_date : string)
  : IO (list Trace * list (string * PriceStats)) :=
  df <~ load_price_data ;;
  lift (df_filtered <- filter_by_date df start_date end_date ;;
        fig <- price_figure df_filtered selected_countries ;;
        stats <- price_stats df_filtered selected_countries ;;
        Ok (fig, stats)).

End Notebook.

(** ** The loops of the loaders, column by column *)

(** One turn of a loop that rewrites the column [col] with [f]. *)
Definition update_column (f : Series -> result Series) (df : DataFrame) (col : string)
  : result DataFrame :=
  s <- getitem df col ;;
  s' <- f s ;;
  Ok (setitem df col s').

(** The table the loop of a loader starts from: the dates converted, the
    columns renamed. *)
Definition renamed (df : DataFrame) (start : list (option Z)) : DataFrame :=
  rename_columns clean_header (setitem df "Start date" (SDatetime start)).

(** The labels the loops go through. *)
Definition is_category (k : string) : bool :=
  negb (mem k ["Start date"; "End date"]).


(** ** The normalizer, field by field *)

(** The three steps on one generation field: the marker [-] becomes the
    text [0], every comma is removed, the rest is converted. *)
Definition generation_field (t : string) : result Py.float :=
  let t := if String.eqb t "-" then "0" else t in
  Py.float_of_str (Py.replace "," "" t).

(** The same on one price field, the comma becoming a decimal point. *)
Definition price_field (t : string) : result Py.float :=
  let t := if String.eqb t "-" then "0" else t in
  Py.float_of_str (Py.replace "," "." t).

(** An element of a text column after normalization with [field]: what
    is not text has become [NaN]. *)
Definition normalized_obj (field : string -> result Py.float) (o : pyobj)
  : result Py.float :=
  match o with
  | PStr t => field t
  | PFloat _ => Ok Py.NaN
  end.


(** ** Summaries, as the specification words them *)






(** Whether a timestamp lies in the closed interval [[s, e]]; [NaT] never
    does. *)
Definition in_range (s e : Z) (t : option Z) : bool :=
  match t with
  | Some t => (s <=? t)%Z && (t <=? e)%Z
  | None => false
  end.

(** The same on the [Start date] value of a row. *)
Definition row_in_range (s e : Z) (r : row) : bool :=
  match row_get r "Start date" with
  | Some (Timestamp t) => in_range s e (Some t)
  | _ => false
  end.





Definition is_datetime (s : Series) : bool :=
  match s with SDatetime _ => true | _ => false end.

(** ** Dates in ISO form *)

(** An instance of the two date conversions, on the dates a date picker
    sends ([YYYY-MM-DD]) and on missing values; it serves to run the
    pipeline on concrete tables. *)
Module Iso.

Definition is_leap (y : Z) : bool :=
  ((y mod 4 =? 0) && negb (y mod 100 =? 0) || (y mod 400 =? 0))%Z.

Definition days_in_month (y m : Z) : Z :=
  if (m =? 2)%Z then (if is_leap y then 29 else 28)%Z
  else if ((m =? 4) || (m =? 6) || (m =? 9) || (m =? 11))%Z then 30%Z
  else 31%Z.

(** Days from 1970-01-01 to the given civil date. *)
Definition days_from_civil (y m d : Z) : Z :=
  let y' := if (m <=? 2)%Z then (y - 1)%Z else y in
  let era := (y' / 400)%Z in
  let yoe := (y' - era * 400)%Z in
  let mp := if (2 <? m)%Z then (m - 3)%Z else (m + 9)%Z in
  let doy := ((153 * mp + 2) / 5 + d - 1)%Z in
  let doe := (yoe * 365 + yoe / 4 - yoe / 100 + doy)%Z in
  (era * 146097 + doe - 719468)%Z.

Definition nanoseconds_per_day : Z := 86400000000000%Z.

Definition number (ds : list ascii) : option Z :=
  if forallb Py.isdigit ds
  then Some (fold_left (fun acc c => (10 * acc + Py.digit_value c)%Z) ds 0%Z)
  else None.

Definition parse_date (s : string) : option Z :=
  match list_ascii_of_string s with
  | [y1; y2; y3; y4; "-"; m1; m2; "-"; d1; d2]%char =>
      match number [y1; y2; y3; y4], number [m1; m2], number [d1; d2] with
      | Some y, Some m, Some d =>
          if ((1 <=? m) && (m <=? 12) && (1 <=? d) && (d <=? days_in_month y m))%Z
          then Some (days_from_civil y m d * nanoseconds_per_day)%Z
          else None
      | _, _, _ => None
      end
  | _ => None
  end.

Definition Timestamp (s : string) : result (option Z) :=
  match parse_date s with
  | Some t => Ok (Some t)
  | None => Raise ValueError
  end.

Definition to_datetime (s : Series) : result (list (option Z)) :=
  match s with
  | SDatetime l => Ok l
  | SObject l =>
      mapM (fun o => match o with
                     | PStr t => Timestamp t
                     | PFloat x => if Py.isnan x then Ok None else Raise TypeError
                     end) l
  | SFloat _ => Raise TypeError
  end.

End Iso.

(** ** Sample tables *)

Module Sample.

(** A price file of three days, as [read_csv] returns it, with the given
    [France] column. *)
Definition price_frame (france : list pyobj) : DataFrame :=
[ ("Start date", SObject [PStr "2024-11-01"; PStr "2024-11-02"; PStr "2024-11-03"]);
  ("End date", SObject [PStr "2024-11-02"; PStr "2024-11-03"; PStr "2024-11-04"]);
  ("Germany/Luxembourg [EUR/MWh] Original resolutions",
   SObject [PStr "45,67"; PStr "-"; PStr "101,5"]);
  ("France [EUR/MWh] Original resolutions", SObject france) ].

(** A [France] column without gaps. *)
Definition france_full : list pyobj :=
  [PStr "44,10"; PStr "-"; PStr "98,01"].

(** A [France] column whose first field is empty in the file, so that
    [read_csv] gives [NaN] for it, followed by the field [second]. *)
Definition france_gap (second : string) : list pyobj :=
  [PFloat Py.NaN; PStr second; PStr "98,01"].

(** A [France] column whose first field is empty in the file, followed
    by the marker and by a price. *)
Definition france_marker : list pyobj :=
  [PFloat Py.NaN; PStr "-"; PStr "45,67"].

Definition generation_frame : DataFrame :=
  [ ("Start date", SObject [PStr "2024-11-01"; PStr "2024-11-02"; PStr "2024-11-03"]);
    ("End date", SObject [PStr "2024-11-02"; PStr "2024-11-03"; PStr "2024-11-04"]);
    ("Biomass [MWh] Calculated resolutions",
     SObject [PStr "1,234"; PStr "-"; PStr "2,000.5"]);
    ("Nuclear [MWh] Calculated resolutions",
     SObject [PStr "-"; PStr "-"; PStr "-"]) ].

Definition world (price : DataFrame) : World :=
  mkWorld (fun path =>
             if String.eqb path generation_csv then Some generation_frame
             else if String.eqb path price_csv then Some price
             else None)
          None None.

(** A typed table of three days with one price column. *)
Definition typed_prices : DataFrame :=
  [ ("Start date",
     SDatetime [Some 1730419200000000000%Z; Some 1730505600000000000%Z;
                Some 1730592000000000000%Z]);
    ("X", SFloat [Py.of_Z 10; Py.of_Z 20; Py.of_Z 30]) ].


(** A filtered table without rows. *)
Definition no_rows : DataFrame :=
  [ ("Start date", SDatetime []); ("X", SFloat []) ].

End Sample.

(** ** The layout of the two tabs *)

Module Layout.

(** [s.min()] and [s.max()] as the date pickers take them: the least and
    the greatest value, missing values skipped.  A datetime column gives
    a timestamp ([NaT] when it has none), a float column a float ([NaN]
    when it has none), a column of text its least or greatest text; text
    mixed with floats does not compare. *)
Definition time_min (a b : option Z) : option Z :=
  match a, b with
  | Some x, Some y => Some (Z.min x y)
  | Some x, None => Some x
  | None, _ => b
  end.

Definition time_max (a b : option Z) : option Z :=
  match a, b with
  | Some x, Some y => Some (Z.max x y)
  | Some x, None => Some x
  | None, _ => b
  end.

Definition datetime_min (l : list (option Z)) : option Z :=
  fold_right time_min None l.

Definition datetime_max (l : list (option Z)) : option Z :=
  fold_right time_max None l.

Definition texts (l : list pyobj) : list string :=
  flat_map (fun o => match o with PStr t => [t] | PFloat _ => [] end) l.

Definition least_text (l : list string) : string :=
  match l with
  | [] => EmptyString
  | t :: l' => fold_left (fun a b => if String.leb a b then a else b) l' t
  end.

Definition greatest_text (l : list string) : string :=
  match l with
  | [] => EmptyString
  | t :: l' => fold_left (fun a b => if String.leb a b then b else a) l' t
  end.

Definition least_float (l : list Py.float) : Py.float :=
  match dropna l with
  | [] => Py.NaN
  | x :: v => fold_left Py.min v x
  end.

Definition greatest_float (l : list Py.float) : Py.float :=
  match dropna l with
  | [] => Py.NaN
  | x :: v => fold_left Py.max v x
  end.

Definition floats (l : list pyobj) : list Py.float :=
  flat_map (fun o => match o with PStr _ => [] | PFloat x => [x] end) l.

Definition min_value (s : Series) : result scalar :=
  match s with
  | SDatetime l => Ok (scalar_of_time (datetime_min l))
  | SFloat l => Ok (Float (least_float l))
  | SObject l =>
      if existsb is_str l then
        if forallb is_str l then Ok (Str (least_text (texts l)))
        else Raise TypeError
      else Ok (Float (least_float (floats l)))
  end.

Definition max_value (s : Series) : result scalar :=
  match s with
  | SDatetime l => Ok (scalar_of_time (datetime_max l))
  | SFloat l => Ok (Float (greatest_float l))
  | SObject l =>
      if existsb is_str l then
        if forallb is_str l then Ok (Str (greatest_text (texts l)))
        else Raise TypeError
      else Ok (Float (greatest_float (floats l)))
  end.

(** The properties of a [dcc.DatePickerRange] that come from the data. *)
Record DatePickerRange : Type := mkDatePickerRange {
  min_date_allowed : scalar;
  max_date_allowed : scalar;
  start_date : scalar;
  end_date : scalar
}.

(** The four bounds of a date picker, each read from the [Start date]
    column of the initial table. *)
Definition date_picker (initial_df : DataFrame) : result DatePickerRange :=
  s <- getitem initial_df "Start date" ;;
  min_allowed <- min_value s ;;
  s <- getitem initial_df "Start date" ;;
  max_allowed <- max_value s ;;
  s <- getitem initial_df "Start date" ;;
  start <- min_value s ;;
  s <- getitem initial_df "Start date" ;;
  stop <- max_value s ;;
  Ok (mkDatePickerRange min_allowed max_allowed start stop).

(** What [generate_generation_tab] puts in the tab: the date picker, and
    the options and the initial value of the checklist of sources. *)
Record GenerationTab : Type := mkGenerationTab {
  generation_date_picker : DatePickerRange;
  energy_sources_options : list string;
  energy_sources_value : list string
}.

(** What [generate_price_tab] puts in the tab: the date picker, and the
    options and the initial value of the dropdown of countries. *)
Record PriceTab : Type := mkPriceTab {
  price_date_picker : DatePickerRange;
  country_selector_options : list string;
  country_selector_value : list string
}.

(** [colors.keys()]. *)
Definition keys {V : Type} (d : list (string * V)) : list string := map fst d.

(** [generate_generation_tab()]; the module-level table [initial_gen_df]
    it reads is its argument. *)
Definition generate_generation_tab (initial_gen_df : DataFrame) : result GenerationTab :=
  picker <- date_picker initial_gen_df ;;
  Ok (mkGenerationTab picker (keys colors) (keys colors)).

(** [generate_price_tab()], on the module-level table [initial_price_df]. *)
Definition generate_price_tab (initial_price_df : DataFrame) : result PriceTab :=
  picker <- date_picker initial_price_df ;;
  Ok (mkPriceTab picker
        (filter (fun col => negb (mem col ["Start date"; "End date"]))
                (columns initial_price_df))
        ["Germany/Luxembourg"]).

(** What [render_content] returns: one of the two tabs, or [None]. *)
Inductive Content : Type :=
| GenerationContent (tab : GenerationTab)
| PriceContent (tab : PriceTab)
| NoContent.

Definition render_content (initial_gen_df initial_price_df : DataFrame) (tab : string)
  : result Content :=
  if String.eqb tab "tab-1" then
    t <- generate_generation_tab initial_gen_df ;; Ok (GenerationContent t)
  else if String.eqb tab "tab-2" then
    t <- generate_price_tab initial_price_df ;; Ok (PriceContent t)
  else Ok NoContent.

End Layout.

(** ** When a column converts *)

(** The columns the generation loop converts: text columns on which the
    [.str] accessor exists and whose every field is accepted. *)
Definition generation_convertible (s : Series) : Prop :=
  exists l, s = SObject l /\ has_str_accessor s = true /\
            forall t, In (PStr t) l -> succeeds (generation_field t).

(** The columns the price loop accepts: they have a first value, and when
    it is text every field of the column is accepted. *)
Definition price_acceptable (s : Series) : Prop :=
  len s <> O /\
  forall t l, s = SObject (PStr t :: l) ->
              forall u, In (PStr u) (PStr t :: l) -> succeeds (price_field u).

(** A table in which every column has [n] rows. *)
Definition rectangular (n : nat) (df : DataFrame) : Prop :=
  Forall (fun c => len (snd c) = n) df.

(** Whether a value of a datetime column is a timestamp, not [NaT]. *)
Definition is_timestamp (t : option Z) : bool :=
  match t with
  | Some _ => true
  | None => false
  end.

(** A generation file whose [Nuclear] column holds plain numbers, which
    [read_csv] reads as a numeric column. *)
Definition generation_frame_numeric : DataFrame :=
  [ ("Start date", SObject [PStr "2024-11-01"; PStr "2024-11-02"]);
    ("End date", SObject [PStr "2024-11-02"; PStr "2024-11-03"]);
    ("Biomass [MWh] Calculated resolutions", SObject [PStr "1,234"; PStr "-"]);
    ("Nuclear [MWh] Calculated resolutions", SFloat [Py.of_Z 0; Py.of_Z 0]) ].

(** A price file with its header and no row. *)
Definition price_frame_no_rows : DataFrame :=
  [ ("Start date", SObject []);
    ("End date", SObject []);
    ("Germany/Luxembourg [EUR/MWh] Original resolutions", SObject []) ].

(** A file without the [Start date] column. *)
Definition frame_without_dates : DataFrame :=
  [ ("Date", SObject [PStr "2024-11-01"]);
    ("Biomass [MWh] Calculated resolutions", SObject [PStr "1,234"]) ].

(** * Supporting lemmas *)

(** ** The result monad *)

Lemma bind_Ok {A B : Type} (r : result A) (k : A -> result B) (b : B) :
  bind r k = Ok b -> exists a, r = Ok a /\ k a = Ok b.
Proof.
  destruct r as [a|e]; simpl; intros H; [exists a; auto | discriminate].
Qed.

Lemma mapM_ext {A B : Type} (f g : A -> result B) (l : list A) :
  (forall a, In a l -> f a = g a) -> mapM f l = mapM g l.
Proof.
  induction l as [|a l IH]; simpl; intros H; [reflexivity|].
  rewrite (H a (or_introl eq_refl)), IH; auto.
Qed.

Lemma mapM_map {A B C : Type} (f : B -> result C) (g : A -> B) (l : list A) :
  mapM f (map g l) = mapM (fun a => f (g a)) l.
Proof.
  induction l as [|a l IH]; simpl; [reflexivity|]. now rewrite IH.
Qed.

Lemma mapM_pure {A B : Type} (f : A -> B) (l : list A) :
  mapM (fun a => Ok (f a)) l = Ok (map f l).
Proof.
  induction l as [|a l IH]; simpl; [reflexivity|]. now rewrite IH.
Qed.

Lemma mapM_fails {A B : Type} (f : A -> result B) (l : list A) (a : A) :
  In a l -> fails (f a) -> fails (mapM f l).
Proof.
  induction l as [|x l IH]; simpl; [tauto|].
  intros [->|Hin] Hf.
  - destruct Hf as [e ->]. now exists e.
  - destruct (f x) as [b|e]; simpl; [|now exists e].
    destruct (IH Hin Hf) as [e ->]. now exists e.
Qed.

(** ** Text *)

Section Text.

Open Scope string_scope.

Lemma append_assoc (a b c : string) : (a ++ b) ++ c = a ++ (b ++ c).
Proof. induction a as [|x a IH]; simpl; [reflexivity|]. now rewrite IH. Qed.

Lemma prefix_append (sub r : string) : String.prefix sub (sub ++ r) = true.
Proof.
  induction sub as [|c sub IH]; simpl; [now destruct r|].
  destruct (ascii_dec c c); [assumption|congruence].
Qed.

Lemma prefix_true (sub s : string) :
  String.prefix sub s = true -> exists r, s = sub ++ r.
Proof.
  revert s; induction sub as [|c sub IH]; intros s H.
  - now exists s.
  - destruct s as [|d s]; simpl in H; [discriminate|].
    destruct (ascii_dec c d) as [->|]; [|discriminate].
    destruct (IH s H) as [r ->]. now exists r.
Qed.

(** [sub in s] holds exactly when [s] has an occurrence of [sub]. *)
Lemma contains_occurrence (sub s : string) :
  Py.contains sub s = true <-> exists q r, s = q ++ sub ++ r.
Proof.
  split.
  - induction s as [|c s IH]; cbn [Py.contains]; intros H.
    + rewrite orb_false_r in H. destruct (prefix_true _ _ H) as [r Hr].
      now exists "", r.
    + apply orb_true_iff in H as [H|H].
      * destruct (prefix_true _ _ H) as [r Hr]. now exists "", r.
      * destruct (IH H) as (q & r & ->). now exists (String c q), r.
  - intros (q & r & ->). induction q as [|c q IH].
    + assert (Hp := prefix_append sub r). cbn [append].
      destruct (sub ++ r); cbn [Py.contains]; rewrite Hp; reflexivity.
    + cbn [append Py.contains]. rewrite IH. apply orb_true_r.
Qed.

Lemma contains_append (a b s : string) :
  Py.contains (a ++ b) s = true -> Py.contains b s = true.
Proof.
  intros H. apply contains_occurrence in H as (q & r & ->).
  apply contains_occurrence. exists (q ++ a), r.
  now rewrite !append_assoc.
Qed.

(** After [s.replace(old, "")] no [old] is left. *)
Lemma replace_removes_all (old : ascii) (s : string) :
  Py.contains (String old "") (Py.replace old "" s) = false.
Proof.
  induction s as [|c s IH]; [cbn; now destruct (ascii_dec old old)|].
  cbn [Py.replace]. destruct (Ascii.eqb_spec c old) as [->|Hne]; [exact IH|].
  cbn [Py.contains String.prefix]. rewrite IH.
  destruct (ascii_dec old c) as [->|]; [contradiction|reflexivity].
Qed.

Lemma split_item0_absent (sep s : string) :
  Py.contains sep s = false -> Py.split_item0 sep s = s.
Proof.
  induction s as [|c s IH]; cbn [Py.contains Py.split_item0]; intros H.
  - now destruct (String.prefix sep "").
  - apply orb_false_iff in H as [Hp Hc]. rewrite Hp, IH; auto.
Qed.

Lemma split_item0_occurrence (sep s : string) :
  Py.contains sep s = true -> exists r, s = Py.split_item0 sep s ++ sep ++ r.
Proof.
  induction s as [|c s IH]; cbn [Py.contains Py.split_item0]; intros H.
  - rewrite orb_false_r in H. rewrite H. now apply prefix_true.
  - destruct (String.prefix sep (String c s)) eqn:Hp.
    + now apply prefix_true.
    + cbn [orb] in H. destruct (IH H) as [r Hr]. exists r.
      cbn [append]. now rewrite <- Hr.
Qed.

Lemma split_item0_first (sep s q r : string) :
  s = q ++ sep ++ r ->
  (String.length (Py.split_item0 sep s) <= String.length q)%nat.
Proof.
  revert q; induction s as [|c s IH]; intros q H.
  - cbn [Py.split_item0]. destruct (String.prefix sep ""); simpl; lia.
  - cbn [Py.split_item0].
    destruct (String.prefix sep (String c s)) eqn:Hp; [simpl; lia|].
    destruct q as [|d q]; cbn [append] in H.
    + rewrite H, prefix_append in Hp. discriminate.
    + injection H as _ H. cbn [String.length]. apply IH in H. lia.
Qed.

End Text.

(** ** Frames *)

Lemma getitem_setitem_same (df : DataFrame) (k : string) (s s' : Series) :
  getitem df k = Ok s -> getitem (setitem df k s') k = Ok s'.
Proof.
  induction df as [|[k0 s0] df IH]; simpl; [discriminate|].
  destruct (String.eqb k0 k) eqn:E; simpl; rewrite E; auto.
Qed.

Lemma columns_setitem (df : DataFrame) (k : string) (s s' : Series) :
  getitem df k = Ok s -> columns (setitem df k s') = columns df.
Proof.
  unfold columns.
  induction df as [|[k0 s0] df IH]; simpl; [discriminate|].
  destruct (String.eqb k0 k) eqn:E; simpl; [reflexivity|].
  intros H. now rewrite IH.
Qed.

Lemma columns_rename (f : string -> string) (df : DataFrame) :
  columns (rename_columns f df) = map f (columns df).
Proof.
  unfold columns, rename_columns. rewrite !map_map. reflexivity.
Qed.

Lemma for_each_invariant {A S : Type} (P : S -> Prop) (body : S -> A -> result S)
      (l : list A) (st st' : S) :
  (forall st a st', P st -> body st a = Ok st' -> P st') ->
  P st -> for_each body l st = Ok st' -> P st'.
Proof.
  intros Hbody. revert st; induction l as [|a l IH]; simpl; intros st HP H.
  - now injection H as <-.
  - apply bind_Ok in H as (st1 & H1 & H2). eauto.
Qed.

Section Loaders.

Variable pd_to_datetime : Series -> result (list (option Z)).

(** Both loaders keep the columns and rename each with [clean_header]. *)
Lemma process_generation_columns (df df' : DataFrame) :
  process_generation_data pd_to_datetime df = Ok df' ->
  columns df' = map clean_header (columns df).
Proof.
  unfold process_generation_data. intros H.
  apply bind_Ok in H as (s0 & Hs0 & H).
  apply bind_Ok in H as (d & Hd & H).
  rewrite <- (columns_setitem df "Start date" (SDatetime d) Hs0), <- columns_rename.
  revert H. apply for_each_invariant with (P := fun x => columns x = _); [|reflexivity].
  intros st col st' HP Hb.
  apply bind_Ok in Hb as (s & Hs & Hb).
  apply bind_Ok in Hb as (s1 & Hs1 & Hb).
  apply bind_Ok in Hb as (s2 & Hs2 & Hb).
  apply bind_Ok in Hb as (s3 & Hs3 & Hb).
  injection Hb as <-.
  rewrite (columns_setitem _ col s3 Hs1), (columns_setitem _ col _ Hs). exact HP.
Qed.


End Loaders.

(** ** The normalizer *)

Lemma replace_object (a b : string) (l : list pyobj) :
  replace a b (SObject l) = SObject (map (replace_obj a b) l).
Proof. reflexivity. Qed.

Lemma is_str_replace_obj (a b : string) (o : pyobj) :
  is_str (replace_obj a b o) = is_str o.
Proof. destruct o as [t|x]; simpl; [destruct (String.eqb t a)|]; reflexivity. Qed.

Lemma is_missing_replace_obj (a b : string) (o : pyobj) :
  is_missing (replace_obj a b o) = is_missing o.
Proof. destruct o as [t|x]; simpl; [destruct (String.eqb t a)|]; reflexivity. Qed.

Lemma has_str_accessor_replace (a b : string) (l : list pyobj) :
  has_str_accessor (replace a b (SObject l)) = has_str_accessor (SObject l).
Proof.
  rewrite replace_object. unfold has_str_accessor. f_equal.
  - induction l as [|o l IH]; [reflexivity|].
    cbn [map existsb]. now rewrite is_str_replace_obj, IH.
  - induction l as [|o l IH]; [reflexivity|].
    cbn [map forallb]. now rewrite is_missing_replace_obj, IH.
Qed.

(** The three steps of a loop fused into one pass over the elements. *)
Lemma convert_object (sepr : ascii) (repl : string) (l : list pyobj) :
  has_str_accessor (SObject l) = true ->
  (s <- str_replace sepr repl (replace "-" "0" (SObject l)) ;; astype_float s) =
  (v <- mapM (normalized_obj
                (fun t => Py.float_of_str
                            (Py.replace sepr repl (if String.eqb t "-" then "0" else t))))
             l ;;
   Ok (SFloat v)).
Proof.
  intros H. rewrite <- (has_str_accessor_replace "-" "0") in H.
  rewrite replace_object in *. unfold str_replace. rewrite H.
  cbn [bind astype_float]. rewrite !mapM_map.
  erewrite mapM_ext; [reflexivity|].
  intros [t|x] _; simpl; [destruct (String.eqb t "-")|]; reflexivity.
Qed.

Lemma normalize_generation_object (l : list pyobj) :
  has_str_accessor (SObject l) = true ->
  normalize_generation (SObject l) =
  (v <- mapM (normalized_obj generation_field) l ;; Ok (SFloat v)).
Proof. intros H. unfold normalize_generation. now rewrite convert_object. Qed.

Lemma has_str_accessor_text (l : list string) :
  has_str_accessor (SObject (map PStr l)) = true.
Proof. destruct l; reflexivity. Qed.

(** A column the generation loop converts holds floats only. *)
Lemma normalize_generation_float (s s' : Series) :
  normalize_generation s = Ok s' -> exists l, s' = SFloat l.
Proof.
  unfold normalize_generation. intros H.
  apply bind_Ok in H as (s1 & H1 & H2).
  destruct s as [l| |]; try discriminate.
  rewrite replace_object in H1. unfold str_replace in H1.
  destruct (has_str_accessor _); [|discriminate]. injection H1 as <-.
  cbn [astype_float] in H2. apply bind_Ok in H2 as (v & _ & Hv).
  injection Hv as <-. now exists v.
Qed.

(** A field the conversion refuses makes the whole column fail. *)
Lemma normalize_generation_refuses (l : list pyobj) (t : string) :
  In (PStr t) l -> fails (generation_field t) -> fails (normalize_generation (SObject l)).
Proof.
  intros Hin Hf. rewrite normalize_generation_object.
  - destruct (mapM_fails (normalized_obj generation_field) l (PStr t) Hin Hf) as [e ->].
    now exists e.
  - unfold has_str_accessor. apply orb_true_iff. left.
    apply existsb_exists. now exists (PStr t).
Qed.

Lemma normalize_price_text (t : string) (l : list pyobj) :
  normalize_price (SObject (PStr t :: l)) =
  (v <- mapM (normalized_obj price_field) (PStr t :: l) ;; Ok (SFloat v)).
Proof.
  unfold normalize_price.
  assert (Hi : iloc0 (replace "-" "0" (SObject (PStr t :: l))) =
               Ok (Str (if String.eqb t "-" then "0" else t))).
  { unfold iloc0. simpl. now destruct (String.eqb t "-"). }
  rewrite Hi. cbn [bind]. replace (isinstance_str _) with true by reflexivity.
  now rewrite convert_object.
Qed.

Lemma normalize_price_refuses (t0 t : string) (l : list pyobj) :
  In (PStr t) (PStr t0 :: l) -> fails (price_field t) ->
  fails (normalize_price (SObject (PStr t0 :: l))).
Proof.
  intros Hin Hf. rewrite normalize_price_text.
  destruct (mapM_fails (normalized_obj price_field) _ (PStr t) Hin Hf) as [e ->].
  now exists e.
Qed.

(** ** Boolean indexing and rows *)

Section Rows.

Lemma select_map {A B : Type} (f : A -> B) (mask : list bool) (l : list A) :
  select mask (map f l) = map f (select mask l).
Proof.
  revert l; induction mask as [|b mask IH]; intros [|a l]; simpl; auto.
  destruct b; simpl; now rewrite IH.
Qed.

Lemma select_length {A : Type} (mask : list bool) (l : list A) :
  List.length l = List.length mask ->
  List.length (select mask l) = List.length (filter (fun b => b) mask).
Proof.
  revert l; induction mask as [|b mask IH]; intros [|a l]; simpl; auto;
    try discriminate.
  intros H. injection H as H. destruct b; simpl; auto.
Qed.


Lemma cells_Series_loc (mask : list bool) (s : Series) :
  cells (Series_loc mask s) = select mask (cells s).
Proof. destruct s; simpl; now rewrite select_map. Qed.

Lemma cell_columns_loc (mask : list bool) (df : DataFrame) :
  cell_columns (loc mask df) =
  map (fun c => (fst c, select mask (snd c))) (cell_columns df).
Proof.
  unfold cell_columns, loc. rewrite !map_map.
  apply map_ext. intros [k s]; simpl. now rewrite cells_Series_loc.
Qed.

Lemma columns_loc (mask : list bool) (df : DataFrame) :
  columns (loc mask df) = columns df.
Proof. unfold columns, loc. rewrite map_map. reflexivity. Qed.

Lemma getitem_loc (mask : list bool) (df : DataFrame) (k : string) (s : Series) :
  getitem df k = Ok s -> getitem (loc mask df) k = Ok (Series_loc mask s).
Proof.
  induction df as [|[k0 s0] df IH]; simpl; [discriminate|].
  destruct (String.eqb k0 k); [now intros [= ->]|assumption].
Qed.

Abbreviation cols_of_length n :=
  (Forall (fun c : string * list scalar => List.length (snd c) = n)).

Lemma tails_length (n : nat) (cols : list (string * list scalar)) :
  cols_of_length (S n) cols -> cols_of_length n (tails cols).
Proof.
  induction 1 as [|[k [|v vs]] cols H _ IH]; simpl in *; constructor;
    try discriminate; auto.
Qed.

Lemma select_true_heads (n : nat) (mask : list bool) (cols : list (string * list scalar)) :
  cols_of_length (S n) cols ->
  heads (map (fun c => (fst c, select (true :: mask) (snd c))) cols) = heads cols /\
  tails (map (fun c => (fst c, select (true :: mask) (snd c))) cols) =
  map (fun c => (fst c, select mask (snd c))) (tails cols).
Proof.
  induction 1 as [|[k [|v vs]] cols H _ [IH1 IH2]]; simpl in *;
    try discriminate; [split; reflexivity|].
  unfold heads, tails in *. simpl. now rewrite IH1, IH2.
Qed.

Lemma select_false_tails (n : nat) (mask : list bool) (cols : list (string * list scalar)) :
  cols_of_length (S n) cols ->
  map (fun c => (fst c, select (false :: mask) (snd c))) cols =
  map (fun c => (fst c, select mask (snd c))) (tails cols).
Proof.
  induction 1 as [|[k [|v vs]] cols H _ IH]; simpl in *;
    try discriminate; [reflexivity|].
  unfold tails in *. now rewrite IH.
Qed.

(** Selecting positions in every column selects rows. *)
Lemma transpose_select (mask : list bool) (cols : list (string * list scalar)) :
  cols_of_length (List.length mask) cols ->
  transpose (List.length (filter (fun b => b) mask))
            (map (fun c => (fst c, select mask (snd c))) cols) =
  select mask (transpose (List.length mask) cols).
Proof.
  revert cols; induction mask as [|b mask IH]; intros cols H; [reflexivity|].
  cbn [List.length] in H. cbn [List.length transpose].
  destruct b; cbn [filter List.length transpose].
  - destruct (select_true_heads mask H) as [-> ->].
    rewrite IH by now apply tails_length. reflexivity.
  - rewrite (select_false_tails mask H).
    rewrite IH by now apply tails_length. reflexivity.
Qed.

Lemma heads_get (cols : list (string * list scalar)) (key : string)
      (v : scalar) (vs : list scalar) (n : nat) :
  cols_of_length (S n) cols ->
  dict_get cols key = Ok (v :: vs) ->
  row_get (heads cols) key = Some v /\ dict_get (tails cols) key = Ok vs.
Proof.
  induction 1 as [|[k [|x xs]] cols H _ IH]; simpl in *; try discriminate.
  unfold heads, tails in *. simpl.
  destruct (String.eqb k key); [now intros [= -> ->]|assumption].
Qed.

(** Selecting rows with the mask computed from one column is filtering
    the rows on their value in that column. *)
Lemma select_rows_by_column (f : scalar -> bool) (key : string)
      (vals : list scalar) (cols : list (string * list scalar)) :
  dict_get cols key = Ok vals ->
  cols_of_length (List.length vals) cols ->
  select (map f vals) (transpose (List.length vals) cols) =
  filter (fun r => match row_get r key with
                   | Some v => f v
                   | None => false
                   end)
         (transpose (List.length vals) cols).
Proof.
  revert cols; induction vals as [|v vals IH]; intros cols Hget Hlen;
    [reflexivity|].
  cbn [List.length] in *. cbn [transpose map select filter].
  destruct (heads_get key Hlen Hget) as [-> Ht].
  rewrite (IH _ Ht (tails_length Hlen)). now destruct (f v).
Qed.

Lemma getitem_cell_columns (df : DataFrame) (key : string) (s : Series) :
  getitem df key = Ok s -> dict_get (cell_columns df) key = Ok (cells s).
Proof.
  induction df as [|[k s0] df IH]; simpl; [discriminate|].
  destruct (String.eqb k key); [now intros [= ->]|assumption].
Qed.

Lemma mask_and_map {A : Type} (f g : A -> bool) (l : list A) :
  mask_and (map f l) (map g l) = map (fun a => f a && g a) l.
Proof.
  unfold mask_and. induction l as [|a l IH]; simpl; [reflexivity|].
  now rewrite IH.
Qed.

Lemma filter_none {A : Type} (p : A -> bool) (l : list A) :
  (forall a, p a = false) -> filter p l = [].
Proof.
  intros H. induction l as [|a l IH]; simpl; [reflexivity|]. now rewrite H.
Qed.

End Rows.

(** ** The date filter *)

Section Filter.

Variable pd_Timestamp : string -> result (option Z).

(** The mask the callbacks compute, on a loaded table. *)
Lemma date_mask_in_range (df : DataFrame) (start_date end_date : string)
      (dates : list (option Z)) (s e : Z) :
  getitem df "Start date" = Ok (SDatetime dates) ->
  pd_Timestamp start_date = Ok (Some s) ->
  pd_Timestamp end_date = Ok (Some e) ->
  date_mask pd_Timestamp df start_date end_date = Ok (map (in_range s e) dates).
Proof.
  intros Hd Hs He. unfold date_mask. rewrite Hd. cbn [bind].
  unfold Series_ge, Series_le, compare_with. rewrite Hs, He. cbn [bind].
  rewrite mask_and_map. f_equal. apply map_ext.
  intros [t|]; [|reflexivity]. unfold in_range. now rewrite Z.geb_leb.
Qed.

Lemma filter_by_date_loc (df : DataFrame) (start_date end_date : string)
      (dates : list (option Z)) (s e : Z) :
  getitem df "Start date" = Ok (SDatetime dates) ->
  pd_Timestamp start_date = Ok (Some s) ->
  pd_Timestamp end_date = Ok (Some e) ->
  filter_by_date pd_Timestamp df start_date end_date =
  Ok (loc (map (in_range s e) dates) df).
Proof.
  intros Hd Hs He. unfold filter_by_date.
  now rewrite (date_mask_in_range df Hd Hs He).
Qed.

Lemma in_range_empty (s e : Z) (t : option Z) :
  (e < s)%Z -> in_range s e t = false.
Proof.
  intros H. destruct t as [t|]; [|reflexivity]. unfold in_range.
  destruct (Z.leb_spec s t), (Z.leb_spec t e); try reflexivity. lia.
Qed.

Lemma rows_loc_in_range (df : DataFrame) (dates : list (option Z)) (s e : Z) :
  getitem df "Start date" = Ok (SDatetime dates) ->
  Forall (fun c => len (snd c) = List.length dates) df ->
  rows (loc (map (in_range s e) dates) df) = filter (row_in_range s e) (rows df).
Proof.
  intros Hd Hlen.
  assert (Hcols : Forall (fun c : string * list scalar =>
                            List.length (snd c) = List.length dates)
                         (cell_columns df)).
  { unfold cell_columns. apply Forall_map.
    eapply Forall_impl; [|exact Hlen]. now intros [k c]. }
  set (f := fun v => match v with
                     | Timestamp t => in_range s e (Some t)
                     | _ => false
                     end).
  assert (Hmask : map (in_range s e) dates = map f (cells (SDatetime dates))).
  { cbn [cells]. rewrite map_map. apply map_ext. now intros [t|]. }
  assert (Hn : nrows df = List.length dates).
  { destruct df as [|[k c] df]; [discriminate|]. now inversion Hlen. }
  assert (Hn' : nrows (loc (map (in_range s e) dates) df) =
                List.length (filter (fun b => b) (map (in_range s e) dates))).
  { destruct df as [|[k c] df]; [discriminate|].
    cbn [loc map nrows fst snd]. unfold len. rewrite cells_Series_loc.
    apply select_length. rewrite length_map. now inversion Hlen. }
  unfold rows. rewrite Hn', Hn, cell_columns_loc.
  rewrite transpose_select by now rewrite length_map.
  rewrite length_map, Hmask.
  replace (List.length dates) with (List.length (cells (SDatetime dates)))
    by (cbn [cells]; apply length_map).
  rewrite (select_rows_by_column f "Start date").
  - apply filter_ext. intros r. unfold row_in_range, f.
    now destruct (row_get r "Start date") as [[]|].
  - now apply getitem_cell_columns.
  - cbn [cells]. now rewrite length_map.
Qed.

End Filter.

(** ** Summaries *)

Section Summaries.













End Summaries.

(** ** Tables without rows *)

Lemma getitem_In (df : DataFrame) (k : string) (s : Series) :
  getitem df k = Ok s -> In (k, s) df.
Proof.
  induction df as [|[k0 s0] df IH]; simpl; [discriminate|].
  destruct (String.eqb_spec k0 k) as [->|]; [intros [= ->]; now left|].
  intros H. right. now apply IH.
Qed.

Lemma empty_series (s : Series) :
  len s = O -> is_datetime s = false -> s = SObject [] \/ s = SFloat [].
Proof.
  unfold len. destruct s as [[|o l]|[|x l]|l]; simpl; try discriminate; auto.
Qed.

Lemma empty_column (dff : DataFrame) (c : string) :
  Forall (fun col => len (snd col) = O) dff ->
  (exists s, getitem dff c = Ok s /\ is_datetime s = false) ->
  getitem dff c = Ok (SObject []) \/ getitem dff c = Ok (SFloat []).
Proof.
  intros Hall (s & Hs & Hd).
  assert (Hlen : len s = O).
  { rewrite Forall_forall in Hall. exact (Hall _ (getitem_In _ _ Hs)). }
  rewrite Hs. destruct (empty_series s Hlen Hd) as [->| ->]; auto.
Qed.

(** ** The loops of the loaders *)

Section Loops.

Lemma setitem_setitem (df : DataFrame) (k : string) (a b : Series) :
  setitem (setitem df k a) k b = setitem df k b.
Proof.
  induction df as [|[k0 s0] df IH]; simpl.
  - now rewrite String.eqb_refl.
  - destruct (String.eqb k0 k) eqn:E; simpl; rewrite E; [reflexivity|].
    now rewrite IH.
Qed.

Lemma getitem_setitem_other (df : DataFrame) (k a : string) (s : Series) :
  k <> a -> getitem (setitem df a s) k = getitem df k.
Proof.
  intros Hne. induction df as [|[k0 s0] df IH]; simpl.
  - destruct (String.eqb_spec a k); [congruence|reflexivity].
  - destruct (String.eqb_spec k0 a) as [->|]; simpl.
    + destruct (String.eqb_spec a k); [congruence|reflexivity].
    + now rewrite IH.
Qed.

Lemma getitem_columns (df : DataFrame) (k : string) :
  In k (columns df) <-> exists s, getitem df k = Ok s.
Proof.
  unfold columns. induction df as [|[k0 s0] df IH]; simpl.
  - split; [tauto|]. intros [s H]. discriminate.
  - destruct (String.eqb_spec k0 k) as [->|Hne].
    + split; [now exists s0|auto].
    + rewrite <- IH. split; [intros [H|H]; [contradiction|assumption]|auto].
Qed.

Lemma for_each_ext {A S : Type} (f g : S -> A -> result S) (l : list A) (st : S) :
  (forall st a, f st a = g st a) -> for_each f l st = for_each g l st.
Proof.
  intros H. revert st; induction l as [|a l IH]; intros st; simpl; [reflexivity|].
  rewrite H. destruct (g st a); simpl; auto.
Qed.

Lemma generation_body (df : DataFrame) (col : string) :
  (s <- getitem df col ;;
   let df := setitem df col (replace "-" "0" s) in
   s <- getitem df col ;;
   s <- str_replace "," "" s ;;
   s <- astype_float s ;;
   Ok (setitem df col s)) =
  update_column normalize_generation df col.
Proof.
  unfold update_column, normalize_generation.
  destruct (getitem df col) as [s|e] eqn:E; [|reflexivity]. cbn [bind].
  rewrite (getitem_setitem_same _ _ _ E). cbn [bind].
  destruct (str_replace "," "" (replace "-" "0" s)) as [s1|e]; [|reflexivity].
  cbn [bind]. destruct (astype_float s1) as [s2|e]; [|reflexivity].
  cbn [bind]. now rewrite setitem_setitem.
Qed.

Lemma price_body (df : DataFrame) (col : string) :
  (s <- getitem df col ;;
   let df := setitem df col (replace "-" "0" s) in
   s <- getitem df col ;;
   v <- iloc0 s ;;
   if isinstance_str v then
     s <- getitem df col ;;
     s <- str_replace "," "." s ;;
     s <- astype_float s ;;
     Ok (setitem df col s)
   else Ok df) =
  update_column normalize_price df col.
Proof.
  unfold update_column, normalize_price.
  destruct (getitem df col) as [s|e] eqn:E; [|reflexivity]. cbn [bind].
  rewrite (getitem_setitem_same _ _ _ E). cbn [bind].
  destruct (iloc0 (replace "-" "0" s)) as [v|e]; [|reflexivity]. cbn [bind].
  destruct (isinstance_str v); [|reflexivity].
  destruct (str_replace "," "." (replace "-" "0" s)) as [s1|e]; [|reflexivity].
  cbn [bind]. destruct (astype_float s1) as [s2|e]; [|reflexivity].
  cbn [bind]. now rewrite setitem_setitem.
Qed.

(** After a loop over distinct labels every listed column is the image
    by [f] of what it was, and the other columns are untouched. *)
Lemma for_each_update_column (f : Series -> result Series) (cols : list string)
      (df df' : DataFrame) :
  NoDup cols ->
  for_each (update_column f) cols df = Ok df' ->
  (forall k, In k cols ->
             exists s s', getitem df k = Ok s /\ f s = Ok s' /\ getitem df' k = Ok s') /\
  (forall k, ~ In k cols -> getitem df' k = getitem df k).
Proof.
  intros Hnd. revert df; induction Hnd as [|a cols Ha Hnd IH]; intros df H.
  - injection H as <-. split; [intros k []|reflexivity].
  - cbn [for_each] in H. apply bind_Ok in H as (df1 & H1 & H2).
    unfold update_column in H1.
    apply bind_Ok in H1 as (s & Hs & H1).
    apply bind_Ok in H1 as (s' & Hs' & H1). injection H1 as <-.
    destruct (IH _ H2) as [IHin IHout]. split.
    + intros k [<-|Hin].
      * exists s, s'. repeat split; auto.
        rewrite (IHout a Ha). now apply getitem_setitem_same with (s := s).
      * destruct (IHin k Hin) as (s1 & s1' & Hg & Hf & Hg').
        exists s1, s1'. repeat split; auto.
        rewrite <- Hg. symmetry. apply getitem_setitem_other.
        intros ->. contradiction.
    + intros k Hk. rewrite IHout by (intros Hin; apply Hk; now right).
      apply getitem_setitem_other. intros ->. apply Hk. now left.
Qed.

Lemma In_insert_sorted (k x : string) (l : list string) :
  In x (insert_sorted k l) <-> x = k \/ In x l.
Proof.
  induction l as [|h t IH]; simpl; [intuition|].
  destruct (String.leb k h); simpl; [intuition|]. rewrite IH. intuition.
Qed.

Lemma In_sorted (x : string) (l : list string) : In x (sorted l) <-> In x l.
Proof.
  unfold sorted. induction l as [|h t IH]; simpl; [tauto|].
  rewrite In_insert_sorted, IH. intuition.
Qed.

Lemma NoDup_insert_sorted (k : string) (l : list string) :
  ~ In k l -> NoDup l -> NoDup (insert_sorted k l).
Proof.
  intros Hk Hnd. induction Hnd as [|h t Hh Hnd IH]; simpl.
  - constructor; [tauto|constructor].
  - destruct (String.leb k h).
    + constructor; [exact Hk|now constructor].
    + constructor.
      * rewrite In_insert_sorted. intros [->|H]; [|contradiction].
        apply Hk. now left.
      * apply IH. intros H. apply Hk. now right.
Qed.

Lemma NoDup_sorted (l : list string) : NoDup l -> NoDup (sorted l).
Proof.
  unfold sorted. induction 1 as [|h t Hh Hnd IH]; simpl; [constructor|].
  apply NoDup_insert_sorted; [|exact IH].
  fold (sorted t). now rewrite In_sorted.
Qed.

Lemma columns_difference_spec (df : DataFrame) (other : list string) (k : string) :
  In k (columns_difference df other) <-> In k (columns df) /\ mem k other = false.
Proof.
  unfold columns_difference. rewrite In_sorted, nodup_In, filter_In.
  now rewrite negb_true_iff.
Qed.

Lemma NoDup_columns_difference (df : DataFrame) (other : list string) :
  NoDup (columns_difference df other).
Proof. apply NoDup_sorted, NoDup_nodup. Qed.

End Loops.

(** ** The loaded tables *)

Section Loaded.

Variable pd_to_datetime : Series -> result (list (option Z)).

Lemma process_generation_loop (df df' : DataFrame) :
  process_generation_data pd_to_datetime df = Ok df' ->
  exists s start,
    getitem df "Start date" = Ok s /\ pd_to_datetime s = Ok start /\
    for_each (update_column normalize_generation)
             (columns_difference (renamed df start) ["Start date"; "End date"])
             (renamed df start) = Ok df'.
Proof.
  unfold process_generation_data. intros H.
  apply bind_Ok in H as (s & Hs & H).
  apply bind_Ok in H as (start & Hd & H).
  exists s, start. repeat split; auto.
  rewrite <- H. apply for_each_ext. intros st a.
  symmetry. apply generation_body.
Qed.

Lemma process_price_loop (df df' : DataFrame) :
  process_price_data pd_to_datetime df = Ok df' ->
  exists s start,
    getitem df "Start date" = Ok s /\ pd_to_datetime s = Ok start /\
    for_each (update_column normalize_price)
             (columns_difference (renamed df start) ["Start date"; "End date"])
             (renamed df start) = Ok df'.
Proof.
  unfold process_price_data. intros H.
  apply bind_Ok in H as (s & Hs & H).
  apply bind_Ok in H as (start & Hd & H).
  exists s, start. repeat split; auto.
  rewrite <- H. apply for_each_ext. intros st a.
  symmetry. apply price_body.
Qed.

(** After a successful generation load every category column is the
    normalization of the column read from the file. *)
Lemma generation_load_normalizes (df df' : DataFrame) (k : string) (s' : Series) :
  process_generation_data pd_to_datetime df = Ok df' ->
  is_category k = true ->
  getitem df' k = Ok s' ->
  exists s start,
    getitem (renamed df start) k = Ok s /\ normalize_generation s = Ok s'.
Proof.
  intros H Hk Hg.
  assert (Hcols := process_generation_columns pd_to_datetime df H).
  destruct (process_generation_loop df H) as (s0 & start & Hs0 & Hd & Hloop).
  destruct (for_each_update_column _ _ (NoDup_columns_difference _ _) Hloop)
    as [Hin _].
  assert (Hk' : In k (columns_difference (renamed df start) ["Start date"; "End date"])).
  { apply columns_difference_spec. split.
    - unfold renamed. rewrite columns_rename, (columns_setitem _ _ _ Hs0), <- Hcols.
      apply getitem_columns. now exists s'.
    - unfold is_category in Hk. now apply negb_true_iff in Hk. }
  destruct (Hin k Hk') as (s & s1 & Hs & Hn & Hs1).
  exists s, start. split; [exact Hs|]. congruence.
Qed.

(** After a successful generation load every category column holds
    floats only. *)
Lemma generation_load_numeric (df df' : DataFrame) (k : string) (s' : Series) :
  process_generation_data pd_to_datetime df = Ok df' ->
  is_category k = true ->
  getitem df' k = Ok s' ->
  exists l, s' = SFloat l.
Proof.
  intros H Hk Hg.
  destruct (generation_load_normalizes df k H Hk Hg) as (s & start & _ & Hn).
  now apply normalize_generation_float with (s := s).
Qed.

(** A generation field that the conversion refuses makes the load fail. *)
Lemma generation_load_refuses (df : DataFrame) (s0 : Series) (start : list (option Z))
      (k t : string) (l : list pyobj) :
  getitem df "Start date" = Ok s0 ->
  pd_to_datetime s0 = Ok start ->
  is_category k = true ->
  getitem (renamed df start) k = Ok (SObject l) ->
  In (PStr t) l ->
  fails (generation_field t) ->
  fails (process_generation_data pd_to_datetime df).
Proof.
  intros Hs0 Hd Hk Hg Hin Hf.
  destruct (process_generation_data pd_to_datetime df) as [df'|e] eqn:H;
    [|now exists e].
  exfalso.
  assert (Hcols := process_generation_columns pd_to_datetime df H).
  destruct (process_generation_loop df H) as (s1 & start1 & Hs1 & Hd1 & Hloop).
  assert (s1 = s0) by congruence. subst s1.
  assert (start1 = start) by congruence. subst start1.
  destruct (for_each_update_column _ _ (NoDup_columns_difference _ _) Hloop)
    as [Hall _].
  assert (Hk' : In k (columns_difference (renamed df start) ["Start date"; "End date"])).
  { apply columns_difference_spec. split.
    - apply getitem_columns. now exists (SObject l).
    - unfold is_category in Hk. now apply negb_true_iff in Hk. }
  destruct (Hall k Hk') as (s & s1 & Hs & Hn & _).
  assert (s = SObject l) by congruence. subst s.
  destruct (normalize_generation_refuses l t Hin Hf) as [e He]. congruence.
Qed.

End Loaded.

Section LoadedPrices.

Variable pd_to_datetime : Series -> result (list (option Z)).

(** In a price column that starts with text, a field that the
    conversion refuses makes the load fail. *)
Lemma price_load_refuses (df : DataFrame) (s0 : Series) (start : list (option Z))
      (k t0 t : string) (l : list pyobj) :
  getitem df "Start date" = Ok s0 ->
  pd_to_datetime s0 = Ok start ->
  is_category k = true ->
  getitem (renamed df start) k = Ok (SObject (PStr t0 :: l)) ->
  In (PStr t) (PStr t0 :: l) ->
  fails (price_field t) ->
  fails (process_price_data pd_to_datetime df).
Proof.
  intros Hs0 Hd Hk Hg Hin Hf.
  destruct (process_price_data pd_to_datetime df) as [df'|e] eqn:H;
    [|now exists e].
  exfalso.
  destruct (process_price_loop pd_to_datetime df H)
    as (s1 & start1 & Hs1 & Hd1 & Hloop).
  assert (s1 = s0) by congruence. subst s1.
  assert (start1 = start) by congruence. subst start1.
  destruct (for_each_update_column _ _ (NoDup_columns_difference _ _) Hloop)
    as [Hall _].
  assert (Hk' : In k (columns_difference (renamed df start) ["Start date"; "End date"])).
  { apply columns_difference_spec. split.
    - apply getitem_columns. now exists (SObject (PStr t0 :: l)).
    - unfold is_category in Hk. now apply negb_true_iff in Hk. }
  destruct (Hall k Hk') as (s & s1 & Hs & Hn & _).
  assert (s = SObject (PStr t0 :: l)) by congruence. subst s.
  destruct (normalize_price_refuses Hin Hf) as [e He]. congruence.
Qed.

End LoadedPrices.

(** ** Loading and the process state *)

Section Cycles.

Variable pd_to_datetime : Series -> result (list (option Z)).
Variable pd_Timestamp : string -> result (option Z).

Lemma load_generation_data_run (w : World) :
  load_generation_data pd_to_datetime w =
  (match files w generation_csv with
   | Some df => process_generation_data pd_to_datetime df
   | None => Raise FileNotFoundError
   end, w).
Proof.
  unfold load_generation_data, io_bind, read_csv, lift.
  now destruct (files w generation_csv).
Qed.

Lemma load_price_data_run (w : World) :
  load_price_data pd_to_datetime w =
  (match files w price_csv with
   | Some df => process_price_data pd_to_datetime df
   | None => Raise FileNotFoundError
   end, w).
Proof.
  unfold load_price_data, io_bind, read_csv, lift.
  now destruct (files w price_csv).
Qed.



(** The callbacks read the files only: the tables kept in the process
    state have no part in their outcome, and they leave the state as it
    is. *)
Lemma update_generation_graph_fresh (w : World)
      (gen price : option DataFrame) (sel : list string) (s e : string) :
  update_generation_graph pd_to_datetime pd_Timestamp sel s e
                          (mkWorld (files w) gen price) =
  (fst (update_generation_graph pd_to_datetime pd_Timestamp sel s e w),
   mkWorld (files w) gen price).
Proof.
  unfold update_generation_graph, io_bind, lift.
  rewrite !load_generation_data_run. cbn [files fst].
  destruct (match files w generation_csv with
            | Some df => _ | None => _ end) as [df|err]; reflexivity.
Qed.

Lemma update_price_graph_fresh (w : World)
      (gen price : option DataFrame) (sel : list string) (s e : string) :
  update_price_graph pd_to_datetime pd_Timestamp sel s e
                     (mkWorld (files w) gen price) =
  (fst (update_price_graph pd_to_datetime pd_Timestamp sel s e w),
   mkWorld (files w) gen price).
Proof.
  unfold update_price_graph, io_bind, lift.
  rewrite !load_price_data_run. cbn [files fst].
  destruct (match files w price_csv with
            | Some df => _ | None => _ end) as [df|err]; reflexivity.
Qed.

(** Once the module has loaded its two initial tables, a callback still
    gives what it gives without them. *)
Lemma callbacks_ignore_initial_tables (w w1 : World)
      (sel : list string) (s e : string) :
  load_initial_data pd_to_datetime w = (Ok tt, w1) ->
  fst (update_generation_graph pd_to_datetime pd_Timestamp sel s e w1) =
  fst (update_generation_graph pd_to_datetime pd_Timestamp sel s e w) /\
  fst (update_price_graph pd_to_datetime pd_Timestamp sel s e w1) =
  fst (update_price_graph pd_to_datetime pd_Timestamp sel s e w).
Proof.
  unfold load_initial_data, io_bind.
  rewrite load_generation_data_run.
  destruct (match files w generation_csv with
            | Some df => _ | None => _ end) as [gen|err]; [|discriminate].
  rewrite load_price_data_run.
  destruct (match files w price_csv with
            | Some df => _ | None => _ end) as [price|err]; [|discriminate].
  intros [= <-].
  now rewrite update_generation_graph_fresh, update_price_graph_fresh.
Qed.

End Cycles.

(** * The specification, property by property *)

(** C1, as amended.  On a filtered price table without rows the
    statistics of every selected value column are computed without any
    error: the mean, the maximum and the minimum are all NaN. *)
Theorem C1_empty_range_statistics (dff : DataFrame) (selected : list string) :
  Forall (fun col => len (snd col) = O) dff ->
  (forall c, In c selected ->
             exists s, getitem dff c = Ok s /\ is_datetime s = false) ->
  price_stats dff selected =
  Ok (map (fun c => (c, mkPriceStats Py.NaN Py.NaN Py.NaN)) selected).
Proof.
  intros Hall Hsel. unfold price_stats. rewrite <- mapM_pure.
  apply mapM_ext. intros c Hin.
  destruct (empty_column c Hall (Hsel c Hin)) as [-> | ->]; reflexivity.
Qed.

Lemma C1_empty_range_statistics_witness :
  price_stats Sample.no_rows ["X"] =
  Ok [("X", mkPriceStats Py.NaN Py.NaN Py.NaN)].
Proof.
  apply (@C1_empty_range_statistics Sample.no_rows ["X"]).
  - repeat constructor.
  - intros c [<-|[]]. exists (SFloat []). split; reflexivity.
Defined.

(** C1 as stated fails: with a date range that holds no row the price
    callback returns, and reports NaN three times. *)
Lemma C1_counterexample :
  fst (update_price_graph Iso.to_datetime Iso.Timestamp
         ["Germany/Luxembourg"] "2024-12-01" "2024-12-31"
         (Sample.world (Sample.price_frame Sample.france_full))) =
  Ok ([mkTrace "Germany/Luxembourg" (SDatetime []) (SFloat []) None],
      [("Germany/Luxembourg", mkPriceStats Py.NaN Py.NaN Py.NaN)]) /\
  ~ fails (fst (update_price_graph Iso.to_datetime Iso.Timestamp
                  ["Germany/Luxembourg"] "2024-12-01" "2024-12-31"
                  (Sample.world (Sample.price_frame Sample.france_full)))).
Proof.
  split; [vm_compute; reflexivity|].
  intros [e H]. vm_compute in H. discriminate.
Qed.




(** C3, as amended.  Every text field of a generation column is
    normalized in three steps: the marker [-] becomes the text [0], every
    comma is removed, the rest is converted to a float; this is what a
    successful load has done to every category column.  So [1,234] gives
    1234.0 and [-] gives 0.0, while [1.234], whose point is not the
    grouping separator, gives 1.234. *)
Theorem C3_generation_normalizer :
  (forall l : list string,
      normalize_generation (SObject (map PStr l)) =
      (v <- mapM generation_field l ;; Ok (SFloat v))) /\
  (forall t : string,
      generation_field t =
      Py.float_of_str (Py.replace "," "" (if String.eqb t "-" then "0" else t))) /\
  (forall t : string, Py.contains "," (Py.replace "," "" t) = false) /\
  (forall to_datetime df df' k s',
      process_generation_data to_datetime df = Ok df' ->
      is_category k = true ->
      getitem df' k = Ok s' ->
      exists s start,
        getitem (renamed df start) k = Ok s /\ normalize_generation s = Ok s') /\
  normalize_generation (SObject [PStr "1,234"; PStr "-"; PStr "1.234"]) =
  Ok (SFloat [Py.of_Z 1234; Py.of_Z 0; Py.Finite (617 # 500)]).
Proof.
  split; [|split; [|split; [|split]]].
  - intros l. rewrite normalize_generation_object by apply has_str_accessor_text.
    now rewrite mapM_map.
  - reflexivity.
  - apply replace_removes_all.
  - intros to_datetime df df' k s'. apply generation_load_normalizes.
  - vm_compute. reflexivity.
Qed.

Lemma C3_generation_normalizer_witness :
  exists s start,
    getitem (renamed Sample.generation_frame start) "Biomass" = Ok s /\
    normalize_generation s =
    Ok (SFloat [Py.of_Z 1234; Py.of_Z 0; Py.Finite (4001 # 2)]).
Proof.
  destruct C3_generation_normalizer as (_ & _ & _ & H & _).
  eapply (H Iso.to_datetime Sample.generation_frame _ "Biomass" _).
  - vm_compute. reflexivity.
  - reflexivity.
  - vm_compute. reflexivity.
Defined.

(** C3 as stated fails: in a generation column the field [1.234] is
    normalized to 1.234, not to 1234.0. *)
Lemma C3_counterexample :
  normalize_generation (SObject [PStr "1.234"; PStr "-"]) =
  Ok (SFloat [Py.Finite (617 # 500); Py.of_Z 0]) /\
  normalize_generation (SObject [PStr "1.234"; PStr "-"]) <>
  Ok (SFloat [Py.of_Z 1234; Py.of_Z 0]).
Proof.
  split; [vm_compute; reflexivity|]. vm_compute. discriminate.
Qed.

(** C4 fails on the price loader.  The fields of a price column are
    normalized only when the first value of the column is text.  In a
    column whose first field is empty the marker [-] becomes the text
    [0], not the float 0.0, and the field [45,67] keeps its comma and
    stays text, while the same fields of a column that starts with text
    are converted. *)
Theorem C4_price_fields_left_as_text :
  (forall (x : Py.float) (l : list pyobj),
      normalize_price (SObject (PFloat x :: l)) =
      Ok (SObject (PFloat x :: map (replace_obj "-" "0") l))) /\
  normalize_price (SObject Sample.france_marker) =
  Ok (SObject [PFloat Py.NaN; PStr "0"; PStr "45,67"]) /\
  normalize_price (SObject [PStr "45,67"; PStr "-"]) =
  Ok (SFloat [Py.Finite (4567 # 100); Py.of_Z 0]) /\
  exists df,
    fst (load_price_data Iso.to_datetime
           (Sample.world (Sample.price_frame Sample.france_marker)))
    = Ok df /\
    getitem df "France" = Ok (SObject [PFloat Py.NaN; PStr "0"; PStr "45,67"]).
Proof.
  split; [|split; [|split]].
  - reflexivity.
  - reflexivity.
  - vm_compute. reflexivity.
  - eexists. split; vm_compute; reflexivity.
Qed.

(** C5.  On a table whose [Start date] column holds timestamps, the
    filter raises no error and returns the rows whose start timestamp [t]
    satisfies [s <= t <= e], both bounds included, in their order and
    with the same columns: no row is added.  When [e < s] no row is
    returned. *)
Theorem C5_filter_by_date
        (pd_Timestamp : string -> result (option Z))
        (df : DataFrame) (start_date end_date : string)
        (dates : list (option Z)) (s e : Z) :
  getitem df "Start date" = Ok (SDatetime dates) ->
  Forall (fun c => len (snd c) = List.length dates) df ->
  pd_Timestamp start_date = Ok (Some s) ->
  pd_Timestamp end_date = Ok (Some e) ->
  exists df',
    filter_by_date pd_Timestamp df start_date end_date = Ok df' /\
    rows df' = filter (row_in_range s e) (rows df) /\
    columns df' = columns df /\
    ((e < s)%Z -> rows df' = []).
Proof.
  intros Hd Hlen Hs He.
  exists (loc (map (in_range s e) dates) df).
  split; [now apply filter_by_date_loc|].
  assert (Hrows := rows_loc_in_range s e Hd Hlen).
  split; [exact Hrows|]. split; [apply columns_loc|].
  intros Hlt. rewrite Hrows. apply filter_none.
  intros r. unfold row_in_range.
  destruct (row_get r "Start date") as [[| |t|]|]; try reflexivity.
  now apply in_range_empty.
Qed.

Lemma C5_filter_by_date_witness :
  exists df',
    filter_by_date Iso.Timestamp Sample.typed_prices "2024-11-02" "2024-11-02" = Ok df' /\
    rows df' =
    filter (row_in_range 1730505600000000000 1730505600000000000)
           (rows Sample.typed_prices) /\
    columns df' = columns Sample.typed_prices /\
    ((1730505600000000000 < 1730505600000000000)%Z -> rows df' = []).
Proof.
  apply (@C5_filter_by_date Iso.Timestamp Sample.typed_prices
           "2024-11-02" "2024-11-02"
           [Some 1730419200000000000%Z; Some 1730505600000000000%Z;
            Some 1730592000000000000%Z]).
  - reflexivity.
  - repeat constructor.
  - reflexivity.
  - reflexivity.
Defined.



(** C7 fails on the price loader.  A price column whose first field is
    empty is not converted at all: the load succeeds although the field
    [abc] of that column is no number, and the text stays in the table. *)
Theorem C7_price_load_accepts_malformed_text :
  price_field "abc" = Raise ValueError /\
  exists df,
    fst (load_price_data Iso.to_datetime (Sample.world (Sample.price_frame (Sample.france_gap "abc"))))
    = Ok df /\
    getitem df "France" = Ok (SObject [PFloat Py.NaN; PStr "abc"; PStr "98,01"]).
Proof.
  split; [vm_compute; reflexivity|].
  eexists. split; vm_compute; reflexivity.
Qed.

(** C8 fails on the price loader.  After a successful load the [France]
    column, whose first field is empty, still holds the text [45,67]
    instead of the float 45.67, while the column beside it is converted. *)
Theorem C8_price_load_leaves_text :
  exists df,
    fst (load_price_data Iso.to_datetime (Sample.world (Sample.price_frame (Sample.france_gap "45,67"))))
    = Ok df /\
    getitem df "France" = Ok (SObject [PFloat Py.NaN; PStr "45,67"; PStr "98,01"]) /\
    getitem df "Germany/Luxembourg" =
    Ok (SFloat [Py.Finite (4567 # 100); Py.of_Z 0; Py.Finite (203 # 2)]).
Proof.
  eexists. repeat split; vm_compute; reflexivity.
Qed.


(** C10.  On a filtered generation table without rows the summary
    raises no error and gives the total 0.0 for every selected value
    column. *)
Theorem C10_generation_empty_range (dff : DataFrame) (selected : list string) :
  Forall (fun col => len (snd col) = O) dff ->
  (forall c, In c selected ->
             exists s, getitem dff c = Ok s /\ is_datetime s = false) ->
  generation_summary dff selected =
  Ok (map (fun c => (c, Py.of_Z 0)) selected).
Proof.
  intros Hall Hsel. unfold generation_summary. rewrite <- mapM_pure.
  apply mapM_ext. intros c Hin.
  destruct (empty_column c Hall (Hsel c Hin)) as [-> | ->]; reflexivity.
Qed.

Lemma C10_generation_empty_range_witness :
  generation_summary Sample.no_rows ["X"] = Ok [("X", Py.of_Z 0)].
Proof.
  apply (@C10_generation_empty_range Sample.no_rows ["X"]).
  - repeat constructor.
  - intros c [<-|[]]. exists (SFloat []). split; reflexivity.
Defined.

(** * Further properties of the code *)

Unset Implicit Arguments.

(** ** More on the result monad *)

Lemma succeeds_or_fails {A : Type} (r : result A) : succeeds r \/ fails r.
Proof. destruct r as [a|e]; [left; now exists a|right; now exists e]. Qed.

Lemma succeeds_not_fails {A : Type} (r : result A) : succeeds r -> ~ fails r.
Proof. intros [a ->] [e H]. discriminate. Qed.

Lemma mapM_Ok_Forall2 {A B : Type} (f : A -> result B) (l : list A) (bs : list B) :
  mapM f l = Ok bs -> Forall2 (fun a b => f a = Ok b) l bs.
Proof.
  revert bs; induction l as [|a l IH]; intros bs H; cbn [mapM] in H.
  - injection H as <-. constructor.
  - apply bind_Ok in H as (b & Hb & H).
    apply bind_Ok in H as (bs' & Hbs & H). injection H as <-.
    constructor; auto.
Qed.

Lemma mapM_succeeds {A B : Type} (f : A -> result B) (l : list A) :
  (forall a, In a l -> succeeds (f a)) -> succeeds (mapM f l).
Proof.
  induction l as [|a l IH]; intros H; cbn [mapM].
  - now exists [].
  - destruct (H a (or_introl eq_refl)) as [b ->].
    destruct IH as [bs ->]; [intros; apply H; now right|].
    now exists (b :: bs).
Qed.

Lemma mapM_succeeds_each {A B : Type} (f : A -> result B) (l : list A) :
  succeeds (mapM f l) -> forall a, In a l -> succeeds (f a).
Proof.
  intros [bs H] a Hin. apply mapM_Ok_Forall2 in H.
  induction H as [|x b l bs Hx _ IH]; [contradiction|].
  destruct Hin as [<-|Hin]; [now exists b|auto].
Qed.

Lemma mapM_length {A B : Type} (f : A -> result B) (l : list A) (bs : list B) :
  mapM f l = Ok bs -> List.length bs = List.length l.
Proof.
  intros H. apply mapM_Ok_Forall2 in H.
  induction H; cbn [List.length]; auto.
Qed.

(** A loop body that raises nothing but [e] makes the loop raise [e] as
    soon as one element raises. *)
Lemma mapM_raises {A B : Type} (f : A -> result B) (e : exn) (l : list A) (a : A) :
  (forall x, In x l -> succeeds (f x) \/ f x = Raise e) ->
  In a l -> f a = Raise e -> mapM f l = Raise e.
Proof.
  induction l as [|x l IH]; intros Hall Hin Ha; [contradiction|].
  cbn [mapM].
  destruct (Hall x (or_introl eq_refl)) as [[b Hb]|Hb]; rewrite Hb; cbn [bind];
    [|reflexivity].
  destruct Hin as [->|Hin]; [congruence|].
  rewrite IH; auto. intros y Hy. apply Hall. now right.
Qed.

(** ** When a load succeeds *)

Section LoadSuccess.

Variable pd_to_datetime : Series -> result (list (option Z)).

Lemma process_generation_data_loop (df : DataFrame) :
  process_generation_data pd_to_datetime df =
  (s <- getitem df "Start date" ;;
   start <- pd_to_datetime s ;;
   for_each (update_column normalize_generation)
            (columns_difference (renamed df start) ["Start date"; "End date"])
            (renamed df start)).
Proof.
  unfold process_generation_data.
  destruct (getitem df "Start date") as [s|e]; [|reflexivity]. cbn [bind].
  destruct (pd_to_datetime s) as [start|e]; [|reflexivity]. cbn [bind].
  apply for_each_ext. intros st a. apply generation_body.
Qed.

Lemma process_price_data_loop (df : DataFrame) :
  process_price_data pd_to_datetime df =
  (s <- getitem df "Start date" ;;
   start <- pd_to_datetime s ;;
   for_each (update_column normalize_price)
            (columns_difference (renamed df start) ["Start date"; "End date"])
            (renamed df start)).
Proof.
  unfold process_price_data.
  destruct (getitem df "Start date") as [s|e]; [|reflexivity]. cbn [bind].
  destruct (pd_to_datetime s) as [start|e]; [|reflexivity]. cbn [bind].
  apply for_each_ext. intros st a. apply price_body.
Qed.

Lemma for_each_update_succeeds (f : Series -> result Series) (cols : list string)
      (df : DataFrame) :
  NoDup cols ->
  (forall k, In k cols -> exists s, getitem df k = Ok s /\ succeeds (f s)) ->
  succeeds (for_each (update_column f) cols df).
Proof.
  intros Hnd. revert df; induction Hnd as [|a cols Ha Hnd IH]; intros df H.
  - now exists df.
  - destruct (H a (or_introl eq_refl)) as (s & Hs & [s' Hs']).
    cbn [for_each]. unfold update_column at 1. rewrite Hs. cbn [bind].
    rewrite Hs'. cbn [bind]. apply IH. intros k Hk.
    destruct (H k (or_intror Hk)) as (s1 & Hs1 & Hf).
    exists s1. split; [|exact Hf].
    rewrite <- Hs1. apply getitem_setitem_other. intros ->. contradiction.
Qed.

Lemma for_each_update_each (f : Series -> result Series) (cols : list string)
      (df : DataFrame) :
  NoDup cols ->
  succeeds (for_each (update_column f) cols df) ->
  forall k, In k cols -> exists s, getitem df k = Ok s /\ succeeds (f s).
Proof.
  intros Hnd [df' H] k Hk.
  destruct (for_each_update_column f df Hnd H) as [Hin _].
  destruct (Hin k Hk) as (s & s' & Hs & Hf & _).
  exists s. split; [exact Hs|now exists s'].
Qed.

Lemma normalize_generation_succeeds (s : Series) :
  succeeds (normalize_generation s) <-> generation_convertible s.
Proof.
  split.
  - intros [s' H]. unfold normalize_generation in H.
    apply bind_Ok in H as (s1 & H1 & H2).
    destruct s as [l| |]; try discriminate.
    assert (Hacc : has_str_accessor (SObject l) = true).
    { rewrite <- (has_str_accessor_replace "-" "0").
      unfold str_replace in H1. rewrite replace_object in *.
      now destruct (has_str_accessor _). }
    exists l. split; [reflexivity|]. split; [exact Hacc|].
    intros t Hin.
    assert (Hs : succeeds (normalize_generation (SObject l))).
    { exists s'. unfold normalize_generation. rewrite H1. exact H2. }
    rewrite (normalize_generation_object l Hacc) in Hs.
    destruct Hs as [s2 Hs]. apply bind_Ok in Hs as (v & Hv & _).
    exact (mapM_succeeds_each _ _ (ex_intro _ v Hv) (PStr t) Hin).
  - intros (l & -> & Hacc & Hall).
    rewrite (normalize_generation_object l Hacc).
    destruct (mapM_succeeds (normalized_obj generation_field) l) as [v ->].
    + intros [t|x] Hin; [now apply Hall|now exists Py.NaN].
    + now exists (SFloat v).
Qed.

Lemma normalize_price_empty (s : Series) :
  len s = O -> normalize_price s = Raise IndexError.
Proof.
  unfold len. destruct s as [[|o l]|[|x l]|[|t l]]; cbn; try discriminate;
    reflexivity.
Qed.

Lemma normalize_price_succeeds (s : Series) :
  succeeds (normalize_price s) <-> price_acceptable s.
Proof.
  unfold price_acceptable. split.
  - intros Hs. split.
    + intros Hlen. rewrite (normalize_price_empty s Hlen) in Hs.
      destruct Hs. discriminate.
    + intros t l -> u Hin. rewrite normalize_price_text in Hs.
      destruct Hs as [s' Hs]. apply bind_Ok in Hs as (v & Hv & _).
      exact (mapM_succeeds_each _ _ (ex_intro _ v Hv) (PStr u) Hin).
  - intros [Hlen Hall].
    destruct s as [[|[t|x] l]|[|x l]|[|t l]]; cbn in Hlen; try contradiction.
    + rewrite normalize_price_text.
      destruct (mapM_succeeds (normalized_obj price_field) (PStr t :: l)) as [v ->].
      * intros [u|y] Hin; [now apply (Hall t l eq_refl)|now exists Py.NaN].
      * now exists (SFloat v).
    + eexists. reflexivity.
    + eexists. reflexivity.
    + destruct t; eexists; reflexivity.
Qed.

Lemma category_columns (df : DataFrame) (k : string) :
  In k (columns_difference df ["Start date"; "End date"]) <->
  In k (columns df) /\ is_category k = true.
Proof.
  rewrite columns_difference_spec. unfold is_category.
  now rewrite negb_true_iff.
Qed.

Lemma generation_load_succeeds_iff (df : DataFrame) (s0 : Series)
      (start : list (option Z)) :
  getitem df "Start date" = Ok s0 ->
  pd_to_datetime s0 = Ok start ->
  (succeeds (process_generation_data pd_to_datetime df) <->
   forall k, In k (columns (renamed df start)) -> is_category k = true ->
             exists s, getitem (renamed df start) k = Ok s /\
                       generation_convertible s).
Proof.
  intros Hs0 Hd. rewrite process_generation_data_loop, Hs0. cbn [bind].
  rewrite Hd. cbn [bind]. split.
  - intros Hok k Hin Hk.
    destruct (for_each_update_each _ _ _ (NoDup_columns_difference _ _) Hok k)
      as (s & Hs & Hf); [now apply category_columns|].
    exists s. split; [exact Hs|now apply normalize_generation_succeeds].
  - intros Hall. apply for_each_update_succeeds;
      [apply NoDup_columns_difference|].
    intros k Hk. apply category_columns in Hk as [Hin Hk].
    destruct (Hall k Hin Hk) as (s & Hs & Hc).
    exists s. split; [exact Hs|now apply normalize_generation_succeeds].
Qed.

End LoadSuccess.

(** ** Where the columns of the renamed table come from *)

Lemma getitem_rename_origin (f : string -> string) (df : DataFrame)
      (a : string) (s : Series) :
  getitem (rename_columns f df) a = Ok s -> exists h, In (h, s) df /\ f h = a.
Proof.
  unfold rename_columns.
  induction df as [|[k0 s0] df IH]; cbn [map getitem fst snd]; [discriminate|].
  destruct (String.eqb_spec (f k0) a) as [Heq|Hne].
  - intros [= <-]. exists k0. split; [now left|exact Heq].
  - intros H. destruct (IH H) as (h & Hin & Hf). exists h. split; [now right|exact Hf].
Qed.

Lemma In_setitem (df : DataFrame) (key : string) (v : Series) (h : string) (s : Series) :
  In (h, s) (setitem df key v) -> (h = key /\ s = v) \/ In (h, s) df.
Proof.
  induction df as [|[k0 s0] df IH]; cbn [setitem].
  - intros [[= <- <-]|[]]. now left.
  - destruct (String.eqb_spec k0 key) as [->|Hne].
    + intros [[= <- <-]|Hin]; [now left|right; now right].
    + intros [[= <- <-]|Hin]; [right; now left|].
      destruct (IH Hin) as [H|H]; [now left|right; now right].
Qed.

Lemma clean_header_start_date : clean_header "Start date" = "Start date".
Proof. reflexivity. Qed.

Lemma getitem_renamed_origin (df : DataFrame) (start : list (option Z))
      (a : string) (s : Series) :
  getitem (renamed df start) a = Ok s -> a <> "Start date" ->
  exists h, In (h, s) df /\ clean_header h = a.
Proof.
  unfold renamed. intros H Ha.
  destruct (getitem_rename_origin _ _ _ _ H) as (h & Hin & Hf).
  destruct (In_setitem _ _ _ _ _ Hin) as [[-> _]|Hin'].
  - rewrite clean_header_start_date in Hf. congruence.
  - now exists h.
Qed.

Lemma is_category_not_date (k : string) :
  is_category k = true -> k <> "Start date" /\ k <> "End date".
Proof.
  unfold is_category, mem. cbn [existsb]. rewrite negb_true_iff, !orb_false_iff.
  intros (H1 & H2 & _). apply String.eqb_neq in H1, H2. now split.
Qed.

Lemma getitem_absent (df : DataFrame) (k : string) :
  ~ In k (columns df) -> getitem df k = Raise KeyError.
Proof.
  unfold columns. induction df as [|[k0 s0] df IH]; cbn [map getitem fst In];
    [reflexivity|].
  intros H. destruct (String.eqb_spec k0 k) as [->|Hne]; [tauto|].
  apply IH. tauto.
Qed.

Lemma sample_generation_labels_distinct :
  NoDup (map clean_header (columns Sample.generation_frame)).
Proof.
  cbn. repeat constructor; cbn; intros H;
    repeat (destruct H as [H|H]; [discriminate|]); exact H.
Qed.

Lemma sample_price_labels_distinct (france : list pyobj) :
  NoDup (map clean_header (columns (Sample.price_frame france))).
Proof.
  cbn. repeat constructor; cbn; intros H;
    repeat (destruct H as [H|H]; [discriminate|]); exact H.
Qed.

(** X1.  On a file whose cleaned labels are distinct, once its dates are
    converted, the generation load succeeds exactly when every category
    column of the table is a text column on which the [.str] accessor
    exists and all of whose fields are accepted by the conversion. *)
Theorem X1_generation_load_succeeds
        (pd_to_datetime : Series -> result (list (option Z)))
        (df : DataFrame) (s0 : Series) (start : list (option Z)) :
  NoDup (map clean_header (columns df)) ->
  getitem df "Start date" = Ok s0 ->
  pd_to_datetime s0 = Ok start ->
  (succeeds (process_generation_data pd_to_datetime df) <->
   forall k, In k (columns (renamed df start)) -> is_category k = true ->
             exists s, getitem (renamed df start) k = Ok s /\
                       generation_convertible s).
Proof.
  intros _ Hs0 Hd. rewrite process_generation_data_loop, Hs0. cbn [bind].
  rewrite Hd. cbn [bind]. split.
  - intros Hok k Hin Hk.
    destruct (for_each_update_each _ _ _ (NoDup_columns_difference _ _) Hok k)
      as (s & Hs & Hf); [now apply category_columns|].
    exists s. split; [exact Hs|now apply normalize_generation_succeeds].
  - intros Hall. apply for_each_update_succeeds;
      [apply NoDup_columns_difference|].
    intros k Hk. apply category_columns in Hk as [Hin Hk].
    destruct (Hall k Hin Hk) as (s & Hs & Hc).
    exists s. split; [exact Hs|now apply normalize_generation_succeeds].
Qed.

Lemma X1_generation_load_succeeds_witness :
  succeeds (process_generation_data Iso.to_datetime Sample.generation_frame) <->
  forall k,
    In k (columns (renamed Sample.generation_frame
                           [Some 1730419200000000000%Z; Some 1730505600000000000%Z;
                            Some 1730592000000000000%Z])) ->
    is_category k = true ->
    exists s,
      getitem (renamed Sample.generation_frame
                       [Some 1730419200000000000%Z; Some 1730505600000000000%Z;
                        Some 1730592000000000000%Z]) k = Ok s /\
      generation_convertible s.
Proof.
  apply (X1_generation_load_succeeds Iso.to_datetime Sample.generation_frame
           (SObject [PStr "2024-11-01"; PStr "2024-11-02"; PStr "2024-11-03"])).
  - exact sample_generation_labels_distinct.
  - reflexivity.
  - vm_compute. reflexivity.
Defined.

(** X2.  On a file whose cleaned labels are distinct, once its dates are
    converted, the price load succeeds exactly when every category column
    has a first value and, when that value is text, holds only fields the
    conversion accepts. *)
Theorem X2_price_load_succeeds
        (pd_to_datetime : Series -> result (list (option Z)))
        (df : DataFrame) (s0 : Series) (start : list (option Z)) :
  NoDup (map clean_header (columns df)) ->
  getitem df "Start date" = Ok s0 ->
  pd_to_datetime s0 = Ok start ->
  (succeeds (process_price_data pd_to_datetime df) <->
   forall k, In k (columns (renamed df start)) -> is_category k = true ->
             exists s, getitem (renamed df start) k = Ok s /\
                       price_acceptable s).
Proof.
  intros _ Hs0 Hd. rewrite process_price_data_loop, Hs0. cbn [bind].
  rewrite Hd. cbn [bind]. split.
  - intros Hok k Hin Hk.
    destruct (for_each_update_each _ _ _ (NoDup_columns_difference _ _) Hok k)
      as (s & Hs & Hf); [now apply category_columns|].
    exists s. split; [exact Hs|now apply normalize_price_succeeds].
  - intros Hall. apply for_each_update_succeeds;
      [apply NoDup_columns_difference|].
    intros k Hk. apply category_columns in Hk as [Hin Hk].
    destruct (Hall k Hin Hk) as (s & Hs & Hc).
    exists s. split; [exact Hs|now apply normalize_price_succeeds].
Qed.

Lemma X2_price_load_succeeds_witness :
  succeeds (process_price_data Iso.to_datetime (Sample.price_frame Sample.france_full)) <->
  forall k,
    In k (columns (renamed (Sample.price_frame Sample.france_full)
                           [Some 1730419200000000000%Z; Some 1730505600000000000%Z;
                            Some 1730592000000000000%Z])) ->
    is_category k = true ->
    exists s,
      getitem (renamed (Sample.price_frame Sample.france_full)
                       [Some 1730419200000000000%Z; Some 1730505600000000000%Z;
                        Some 1730592000000000000%Z]) k = Ok s /\
      price_acceptable s.
Proof.
  apply (X2_price_load_succeeds Iso.to_datetime
           (Sample.price_frame Sample.france_full)
           (SObject [PStr "2024-11-01"; PStr "2024-11-02"; PStr "2024-11-03"])).
  - exact (sample_price_labels_distinct Sample.france_full).
  - reflexivity.
  - vm_compute. reflexivity.
Defined.

(** X3.  A category column that [read_csv] has already read as numbers
    has no [.str] accessor: the generation loop raises [AttributeError]
    on it, and the generation load fails. *)
Theorem X3_generation_load_numeric_column
        (pd_to_datetime : Series -> result (list (option Z)))
        (df : DataFrame) (s0 : Series) (start : list (option Z))
        (k : string) (l : list Py.float) :
  getitem df "Start date" = Ok s0 ->
  pd_to_datetime s0 = Ok start ->
  is_category k = true ->
  getitem (renamed df start) k = Ok (SFloat l) ->
  normalize_generation (SFloat l) = Raise AttributeError /\
  fails (process_generation_data pd_to_datetime df).
Proof.
  intros Hs0 Hd Hk Hg. split; [reflexivity|].
  destruct (succeeds_or_fails (process_generation_data pd_to_datetime df))
    as [Hok|Hf]; [exfalso|exact Hf].
  assert (Hall := proj1 (generation_load_succeeds_iff
                           pd_to_datetime df s0 start Hs0 Hd) Hok).
  destruct (Hall k) as (s & Hs & l' & Heq & _); [|exact Hk|].
  - apply getitem_columns. now exists (SFloat l).
  - rewrite Hg in Hs. injection Hs as <-. discriminate.
Qed.

Lemma X3_generation_load_numeric_column_witness :
  normalize_generation (SFloat [Py.of_Z 0; Py.of_Z 0]) = Raise AttributeError /\
  fails (process_generation_data Iso.to_datetime generation_frame_numeric).
Proof.
  apply (X3_generation_load_numeric_column Iso.to_datetime generation_frame_numeric
           (SObject [PStr "2024-11-01"; PStr "2024-11-02"])
           [Some 1730419200000000000%Z; Some 1730505600000000000%Z]
           "Nuclear").
  - reflexivity.
  - vm_compute. reflexivity.
  - reflexivity.
  - reflexivity.
Defined.

(** X4.  On a file that has its header and no row, the price load raises
    [IndexError] as soon as the table has a category column: the loop
    asks every category column for its first value. *)
Theorem X4_price_load_without_rows
        (pd_to_datetime : Series -> result (list (option Z)))
        (df : DataFrame) (s0 : Series) (start : list (option Z)) (k : string) :
  getitem df "Start date" = Ok s0 ->
  pd_to_datetime s0 = Ok start ->
  rectangular 0 df ->
  In k (columns (renamed df start)) ->
  is_category k = true ->
  process_price_data pd_to_datetime df = Raise IndexError.
Proof.
  intros Hs0 Hd Hrect Hin Hk.
  rewrite process_price_data_loop, Hs0. cbn [bind]. rewrite Hd. cbn [bind].
  assert (Hk' : In k (columns_difference (renamed df start) ["Start date"; "End date"]))
    by now apply category_columns.
  destruct (columns_difference (renamed df start) ["Start date"; "End date"])
    as [|a cols] eqn:E; [contradiction|].
  assert (Ha : In a (columns (renamed df start)) /\ is_category a = true).
  { apply category_columns. rewrite E. now left. }
  destruct Ha as [Hain Hacat].
  apply getitem_columns in Hain as [s Hs].
  destruct (getitem_renamed_origin df start a s Hs) as (h & Hh & _);
    [now apply is_category_not_date|].
  assert (Hlen : len s = O).
  { unfold rectangular in Hrect. rewrite Forall_forall in Hrect.
    exact (Hrect _ Hh). }
  cbn [for_each]. unfold update_column at 1. rewrite Hs. cbn [bind].
  now rewrite (normalize_price_empty s Hlen).
Qed.

Lemma X4_price_load_without_rows_witness :
  process_price_data Iso.to_datetime price_frame_no_rows = Raise IndexError.
Proof.
  apply (X4_price_load_without_rows Iso.to_datetime price_frame_no_rows
           (SObject []) [] "Germany/Luxembourg").
  - reflexivity.
  - reflexivity.
  - repeat constructor.
  - cbn. tauto.
  - reflexivity.
Defined.

(** X5.  A load leaves the process state as it is, and it raises
    [FileNotFoundError] when the file is missing and [KeyError] when the
    file has no column named [Start date]. *)
Theorem X5_load_errors
        (pd_to_datetime : Series -> result (list (option Z))) (w : World) :
  (files w generation_csv = None ->
   load_generation_data pd_to_datetime w = (Raise FileNotFoundError, w)) /\
  (files w price_csv = None ->
   load_price_data pd_to_datetime w = (Raise FileNotFoundError, w)) /\
  (forall df, files w generation_csv = Some df ->
              ~ In "Start date" (columns df) ->
              load_generation_data pd_to_datetime w = (Raise KeyError, w)) /\
  (forall df, files w price_csv = Some df ->
              ~ In "Start date" (columns df) ->
              load_price_data pd_to_datetime w = (Raise KeyError, w)).
Proof.
  repeat split.
  - intros H. now rewrite load_generation_data_run, H.
  - intros H. now rewrite load_price_data_run, H.
  - intros df H Hno. rewrite load_generation_data_run, H.
    unfold process_generation_data. now rewrite (getitem_absent df _ Hno).
  - intros df H Hno. rewrite load_price_data_run, H.
    unfold process_price_data. now rewrite (getitem_absent df _ Hno).
Qed.

Lemma X5_load_errors_witness :
  load_generation_data Iso.to_datetime (mkWorld (fun _ => None) None None) =
  (Raise FileNotFoundError, mkWorld (fun _ => None) None None) /\
  load_price_data Iso.to_datetime
                  (mkWorld (fun _ => Some frame_without_dates) None None) =
  (Raise KeyError, mkWorld (fun _ => Some frame_without_dates) None None).
Proof.
  split.
  - apply (proj1 (X5_load_errors Iso.to_datetime (mkWorld (fun _ => None) None None))).
    reflexivity.
  - apply (proj2 (proj2 (proj2
             (X5_load_errors Iso.to_datetime
                (mkWorld (fun _ => Some frame_without_dates) None None))))
             frame_without_dates).
    + reflexivity.
    + cbn. intros [H|[H|[]]]; discriminate.
Defined.

(** ** What a load keeps *)

Lemma len_replace (a b : string) (s : Series) : len (replace a b s) = len s.
Proof. destruct s as [l| |]; unfold len; cbn; now rewrite ?length_map. Qed.

Lemma astype_float_len (s s' : Series) :
  astype_float s = Ok s' -> len s' = len s.
Proof.
  destruct s as [l|l|l]; cbn [astype_float]; intros H; try discriminate.
  - apply bind_Ok in H as (v & Hv & H). injection H as <-.
    unfold len. cbn. rewrite !length_map. now apply mapM_length in Hv.
  - now injection H as <-.
Qed.

Lemma str_replace_len (pat : ascii) (repl : string) (s s' : Series) :
  str_replace pat repl s = Ok s' -> len s' = len s.
Proof.
  destruct s as [l|l|l]; cbn [str_replace]; intros H; try discriminate.
  destruct (has_str_accessor (SObject l)); [|discriminate].
  injection H as <-. unfold len. cbn. now rewrite !length_map.
Qed.

Lemma normalize_generation_len (s s' : Series) :
  normalize_generation s = Ok s' -> len s' = len s.
Proof.
  unfold normalize_generation. intros H.
  apply bind_Ok in H as (s1 & H1 & H2).
  apply astype_float_len in H2. apply str_replace_len in H1.
  rewrite len_replace in H1. congruence.
Qed.

Lemma normalize_price_len (s s' : Series) :
  normalize_price s = Ok s' -> len s' = len s.
Proof.
  unfold normalize_price. intros H.
  apply bind_Ok in H as (v & Hv & H).
  destruct (isinstance_str v).
  - apply bind_Ok in H as (s1 & H1 & H2).
    apply astype_float_len in H2. apply str_replace_len in H1.
    rewrite len_replace in H1. congruence.
  - injection H as <-. apply len_replace.
Qed.

Lemma rectangular_setitem (n : nat) (df : DataFrame) (k : string) (v : Series) :
  rectangular n df -> len v = n -> rectangular n (setitem df k v).
Proof.
  unfold rectangular. intros H Hv.
  induction H as [|[k0 s0] df H0 H IH]; cbn [setitem].
  - now repeat constructor.
  - destruct (String.eqb k0 k); constructor; auto.
Qed.

Lemma rectangular_rename (n : nat) (f : string -> string) (df : DataFrame) :
  rectangular n df -> rectangular n (rename_columns f df).
Proof.
  unfold rectangular, rename_columns. intros H. apply Forall_map.
  eapply Forall_impl; [|exact H]. now intros [k s].
Qed.

Lemma rectangular_getitem (n : nat) (df : DataFrame) (k : string) (s : Series) :
  rectangular n df -> getitem df k = Ok s -> len s = n.
Proof.
  unfold rectangular. rewrite Forall_forall. intros H Hg.
  exact (H _ (getitem_In df k Hg)).
Qed.

Lemma rectangular_update_column (n : nat) (f : Series -> result Series) :
  (forall s s', f s = Ok s' -> len s' = len s) ->
  forall st col st',
    rectangular n st -> update_column f st col = Ok st' -> rectangular n st'.
Proof.
  intros Hf st col st' Hrect H. unfold update_column in H.
  apply bind_Ok in H as (s & Hs & H).
  apply bind_Ok in H as (s' & Hs' & H). injection H as <-.
  apply rectangular_setitem; [exact Hrect|].
  rewrite (Hf _ _ Hs'). now apply rectangular_getitem with (df := st) (k := col).
Qed.

Lemma rectangular_renamed (pd_to_datetime : Series -> result (list (option Z)))
      (n : nat) (df : DataFrame) (s0 : Series) (start : list (option Z)) :
  (forall s start, pd_to_datetime s = Ok start -> List.length start = len s) ->
  rectangular n df ->
  getitem df "Start date" = Ok s0 ->
  pd_to_datetime s0 = Ok start ->
  rectangular n (renamed df start).
Proof.
  intros Hlen Hrect Hs0 Hd. unfold renamed.
  apply rectangular_rename, rectangular_setitem; [exact Hrect|].
  unfold len. cbn [cells]. rewrite length_map, (Hlen _ _ Hd).
  now apply rectangular_getitem with (df := df) (k := "Start date").
Qed.

(** X6.  A load keeps the number of rows: when the conversion of the
    dates gives one timestamp per row, the table a loader returns has, in
    every column, as many rows as the table read from the file. *)
Theorem X6_load_keeps_rows
        (pd_to_datetime : Series -> result (list (option Z)))
        (n : nat) (df df' : DataFrame) :
  (forall s start, pd_to_datetime s = Ok start -> List.length start = len s) ->
  rectangular n df ->
  (process_generation_data pd_to_datetime df = Ok df' -> rectangular n df') /\
  (process_price_data pd_to_datetime df = Ok df' -> rectangular n df').
Proof.
  intros Hlen Hrect. split; intros H.
  - destruct (process_generation_loop pd_to_datetime df H)
      as (s0 & start & Hs0 & Hd & Hloop).
    revert Hloop. apply for_each_invariant.
    + apply rectangular_update_column, normalize_generation_len.
    + now apply rectangular_renamed with (pd_to_datetime := pd_to_datetime) (s0 := s0).
  - destruct (process_price_loop pd_to_datetime df H)
      as (s0 & start & Hs0 & Hd & Hloop).
    revert Hloop. apply for_each_invariant.
    + apply rectangular_update_column, normalize_price_len.
    + now apply rectangular_renamed with (pd_to_datetime := pd_to_datetime) (s0 := s0).
Qed.

Lemma iso_to_datetime_length (s : Series) (start : list (option Z)) :
  Iso.to_datetime s = Ok start -> List.length start = len s.
Proof.
  destruct s as [l|l|l]; cbn [Iso.to_datetime]; intros H; try discriminate.
  - apply mapM_length in H. unfold len. cbn. now rewrite length_map.
  - injection H as <-. unfold len. cbn. now rewrite length_map.
Qed.

Lemma X6_load_keeps_rows_witness :
  exists df',
    process_generation_data Iso.to_datetime Sample.generation_frame = Ok df' /\
    rectangular 3 df'.
Proof.
  destruct (process_generation_data Iso.to_datetime Sample.generation_frame)
    as [df'|e] eqn:E; [|vm_compute in E; discriminate].
  exists df'. split; [reflexivity|].
  apply (proj1 (X6_load_keeps_rows Iso.to_datetime 3 Sample.generation_frame df'
                  iso_to_datetime_length ltac:(repeat constructor))).
  exact E.
Defined.

(** ** The columns of a loaded table *)

Lemma getitem_rename_distinct (f : string -> string) (df : DataFrame)
      (k : string) (s : Series) :
  NoDup (map f (columns df)) ->
  getitem df k = Ok s ->
  getitem (rename_columns f df) (f k) = Ok s.
Proof.
  unfold columns, rename_columns.
  induction df as [|[k0 s0] df IH]; cbn [map getitem fst snd]; [discriminate|].
  intros Hnd Hg. inversion Hnd as [|x xs Hx Hnd']; subst.
  destruct (String.eqb_spec k0 k) as [->|Hne].
  - now rewrite String.eqb_refl.
  - destruct (String.eqb_spec (f k0) (f k)) as [Heq|_]; [|now apply IH].
    exfalso. apply Hx. rewrite Heq. apply in_map.
    apply (proj2 (getitem_columns df k)). now exists s.
Qed.

Lemma getitem_renamed_start (df : DataFrame) (s0 : Series) (start : list (option Z)) :
  NoDup (map clean_header (columns df)) ->
  getitem df "Start date" = Ok s0 ->
  getitem (renamed df start) "Start date" = Ok (SDatetime start).
Proof.
  intros Hnd Hs0. unfold renamed.
  rewrite <- clean_header_start_date at 2.
  apply getitem_rename_distinct.
  - now rewrite (columns_setitem df "Start date" (SDatetime start) Hs0).
  - now apply getitem_setitem_same with (s := s0).
Qed.

Lemma getitem_renamed_other (df : DataFrame) (s0 : Series) (start : list (option Z))
      (h : string) (s : Series) :
  NoDup (map clean_header (columns df)) ->
  getitem df "Start date" = Ok s0 ->
  h <> "Start date" ->
  getitem df h = Ok s ->
  getitem (renamed df start) (clean_header h) = Ok s.
Proof.
  intros Hnd Hs0 Hh Hs. unfold renamed.
  apply getitem_rename_distinct.
  - now rewrite (columns_setitem df "Start date" (SDatetime start) Hs0).
  - rewrite <- Hs. now apply getitem_setitem_other.
Qed.

Section LoadedColumns.

Variable pd_to_datetime : Series -> result (list (option Z)).
Variable f : Series -> result Series.

(** What a loop over the category columns makes of a table read from a
    file whose cleaned labels are distinct. *)
Lemma loop_columns (df df' : DataFrame) (s0 : Series) (start : list (option Z)) :
  NoDup (map clean_header (columns df)) ->
  getitem df "Start date" = Ok s0 ->
  for_each (update_column f)
           (columns_difference (renamed df start) ["Start date"; "End date"])
           (renamed df start) = Ok df' ->
  getitem df' "Start date" = Ok (SDatetime start) /\
  (forall e, getitem df "End date" = Ok e -> getitem df' "End date" = Ok e) /\
  (forall h s, getitem df h = Ok s -> is_category (clean_header h) = true ->
               exists s', f s = Ok s' /\ getitem df' (clean_header h) = Ok s').
Proof.
  intros Hnd Hs0 Hloop.
  destruct (for_each_update_column f (renamed df start)
              (NoDup_columns_difference _ _) Hloop) as [Hin Hout].
  split; [|split].
  - rewrite Hout; [now apply getitem_renamed_start with (s0 := s0)|].
    intros H. apply category_columns in H as [_ H]. discriminate.
  - intros e He. rewrite Hout.
    + change "End date" with (clean_header "End date") at 1.
      apply getitem_renamed_other with (s0 := s0); auto. discriminate.
    + intros H. apply category_columns in H as [_ H]. discriminate.
  - intros h s Hs Hcat.
    assert (Hh : h <> "Start date").
    { intros ->. discriminate. }
    assert (Hr := getitem_renamed_other df s0 start h s Hnd Hs0 Hh Hs).
    destruct (Hin (clean_header h)) as (s1 & s1' & Hs1 & Hf & Hs1').
    + apply category_columns. split; [|exact Hcat].
      apply getitem_columns. now exists s.
    + rewrite Hr in Hs1. injection Hs1 as <-. now exists s1'.
Qed.

End LoadedColumns.

(** X7.  When the cleaned labels of the file are distinct, the table a
    loader returns has the converted timestamps in its [Start date]
    column and the [End date] column of the file, untouched. *)
Theorem X7_loaded_date_columns
        (pd_to_datetime : Series -> result (list (option Z)))
        (df df' : DataFrame) :
  NoDup (map clean_header (columns df)) ->
  process_generation_data pd_to_datetime df = Ok df' \/
  process_price_data pd_to_datetime df = Ok df' ->
  exists s0 start,
    getitem df "Start date" = Ok s0 /\
    pd_to_datetime s0 = Ok start /\
    getitem df' "Start date" = Ok (SDatetime start) /\
    (forall e, getitem df "End date" = Ok e -> getitem df' "End date" = Ok e).
Proof.
  intros Hnd [H|H].
  - destruct (process_generation_loop pd_to_datetime df H)
      as (s0 & start & Hs0 & Hd & Hloop).
    destruct (loop_columns normalize_generation df df' s0 start Hnd Hs0 Hloop)
      as (H1 & H2 & _).
    now exists s0, start.
  - destruct (process_price_loop pd_to_datetime df H)
      as (s0 & start & Hs0 & Hd & Hloop).
    destruct (loop_columns normalize_price df df' s0 start Hnd Hs0 Hloop)
      as (H1 & H2 & _).
    now exists s0, start.
Qed.

Lemma X7_loaded_date_columns_witness :
  exists df' s0 start,
    process_generation_data Iso.to_datetime Sample.generation_frame = Ok df' /\
    getitem Sample.generation_frame "Start date" = Ok s0 /\
    Iso.to_datetime s0 = Ok start /\
    getitem df' "Start date" = Ok (SDatetime start) /\
    (forall e, getitem Sample.generation_frame "End date" = Ok e ->
               getitem df' "End date" = Ok e).
Proof.
  destruct (process_generation_data Iso.to_datetime Sample.generation_frame)
    as [df'|e] eqn:E; [|vm_compute in E; discriminate].
  destruct (X7_loaded_date_columns Iso.to_datetime Sample.generation_frame df'
              sample_generation_labels_distinct (or_introl E))
    as (s0 & start & H).
  exists df', s0, start. split; [reflexivity|exact H].
Defined.

(** X8.  When the cleaned labels of the file are distinct, every category
    column of the file is found in the loaded table under its cleaned
    label, turned into what the loop of the loader makes of it. *)
Theorem X8_loaded_category_columns
        (pd_to_datetime : Series -> result (list (option Z)))
        (df df' : DataFrame) (h : string) (s : Series) :
  NoDup (map clean_header (columns df)) ->
  getitem df h = Ok s ->
  is_category (clean_header h) = true ->
  (process_generation_data pd_to_datetime df = Ok df' ->
   exists s', normalize_generation s = Ok s' /\
              getitem df' (clean_header h) = Ok s') /\
  (process_price_data pd_to_datetime df = Ok df' ->
   exists s', normalize_price s = Ok s' /\
              getitem df' (clean_header h) = Ok s').
Proof.
  intros Hnd Hs Hcat. split; intros H.
  - destruct (process_generation_loop pd_to_datetime df H)
      as (s0 & start & Hs0 & Hd & Hloop).
    destruct (loop_columns normalize_generation df df' s0 start Hnd Hs0 Hloop)
      as (_ & _ & H3).
    now apply H3.
  - destruct (process_price_loop pd_to_datetime df H)
      as (s0 & start & Hs0 & Hd & Hloop).
    destruct (loop_columns normalize_price df df' s0 start Hnd Hs0 Hloop)
      as (_ & _ & H3).
    now apply H3.
Qed.

Lemma X8_loaded_category_columns_witness :
  exists df' s',
    process_generation_data Iso.to_datetime Sample.generation_frame = Ok df' /\
    normalize_generation (SObject [PStr "1,234"; PStr "-"; PStr "2,000.5"]) = Ok s' /\
    getitem df' "Biomass" = Ok s'.
Proof.
  destruct (process_generation_data Iso.to_datetime Sample.generation_frame)
    as [df'|e] eqn:E; [|vm_compute in E; discriminate].
  destruct (proj1 (X8_loaded_category_columns Iso.to_datetime
                     Sample.generation_frame df'
                     "Biomass [MWh] Calculated resolutions"
                     (SObject [PStr "1,234"; PStr "-"; PStr "2,000.5"])
                     sample_generation_labels_distinct eq_refl eq_refl) E)
    as (s' & H1 & H2).
  exists df', s'. split; [reflexivity|]. split; [exact H1|exact H2].
Defined.

(** X9.  After a successful generation load every category column of the
    returned table is a float column. *)
Theorem X9_generation_columns_are_floats
        (pd_to_datetime : Series -> result (list (option Z)))
        (df df' : DataFrame) (k : string) (s' : Series) :
  process_generation_data pd_to_datetime df = Ok df' ->
  is_category k = true ->
  getitem df' k = Ok s' ->
  exists l, s' = SFloat l.
Proof.
  intros H Hk Hg.
  destruct (generation_load_normalizes pd_to_datetime df k H Hk Hg)
    as (s & start & _ & Hn).
  exact (normalize_generation_float s Hn).
Qed.

Lemma X9_generation_columns_are_floats_witness :
  exists l,
    SFloat [Py.of_Z 1234; Py.of_Z 0; Py.Finite (4001 # 2)] = SFloat l.
Proof.
  eapply (X9_generation_columns_are_floats Iso.to_datetime
            Sample.generation_frame _ "Biomass").
  - vm_compute. reflexivity.
  - reflexivity.
  - vm_compute. reflexivity.
Defined.

(** ** Cleaning a header twice *)

Lemma string_length_append (a b : string) :
  String.length (a ++ b) = (String.length a + String.length b)%nat.
Proof. induction a as [|c a IH]; cbn; [reflexivity|]. now rewrite IH. Qed.

(** The text before the first occurrence of a separator has no
    occurrence of it. *)
Lemma split_item0_no_separator (c : ascii) (sep s : string) :
  Py.contains (String c sep) (Py.split_item0 (String c sep) s) = false.
Proof.
  destruct (Py.contains (String c sep) s) eqn:E.
  - destruct (Py.contains (String c sep) (Py.split_item0 (String c sep) s)) eqn:E';
      [exfalso|reflexivity].
    apply contains_occurrence in E' as (q & r & Hp).
    destruct (split_item0_occurrence _ _ E) as [r0 Hs].
    assert (Hs' : s = (q ++ String c sep ++ (r ++ String c sep ++ r0))%string).
    { rewrite Hs at 1. rewrite Hp. now rewrite !append_assoc. }
    apply split_item0_first in Hs'. rewrite Hp in Hs'.
    rewrite !string_length_append in Hs'. cbn [String.length] in Hs'. lia.
  - now rewrite (split_item0_absent _ _ E).
Qed.

(** X10.  A cleaned header has no space followed by an opening bracket
    left, and cleaning it again changes nothing. *)
Theorem X10_clean_header_idempotent (h : string) :
  Py.contains " [" (clean_header h) = false /\
  clean_header (clean_header h) = clean_header h.
Proof.
  assert (H : Py.contains " [" (clean_header h) = false).
  { unfold clean_header. destruct (Py.contains "[" h) eqn:E.
    - apply split_item0_no_separator.
    - destruct (Py.contains " [" h) eqn:E'; [|reflexivity].
      apply (contains_append " " "[") in E'. congruence. }
  split; [exact H|].
  unfold clean_header at 1.
  destruct (Py.contains "[" (clean_header h)); [|reflexivity].
  now apply split_item0_absent.
Qed.

(** ** Filtering a filtered table *)

Lemma select_nil {A : Type} (mask : list bool) : select mask (@nil A) = [].
Proof. now destruct mask. Qed.

Lemma select_select {A B : Type} (p1 p2 : A -> bool) (keys : list A) (l : list B) :
  (forall k, p2 k = true -> p1 k = true) ->
  select (map p2 (select (map p1 keys) keys)) (select (map p1 keys) l) =
  select (map p2 keys) l.
Proof.
  intros Hsub. revert l; induction keys as [|k keys IH]; intros [|x l];
    rewrite ?select_nil; try reflexivity.
  - cbn [map select]. destruct (p1 k) eqn:E1; cbn [map select].
    + destruct (p2 k); now rewrite IH.
    + destruct (p2 k) eqn:E2; [apply Hsub in E2; congruence|]. apply IH.
Qed.

Lemma Series_loc_select (mask : list bool) (dates : list (option Z)) :
  Series_loc mask (SDatetime dates) = SDatetime (select mask dates).
Proof. reflexivity. Qed.

Lemma loc_loc_in_range (df : DataFrame) (dates : list (option Z)) (s1 e1 s2 e2 : Z) :
  (s1 <= s2)%Z -> (e2 <= e1)%Z ->
  loc (map (in_range s2 e2) (select (map (in_range s1 e1) dates) dates))
      (loc (map (in_range s1 e1) dates) df) =
  loc (map (in_range s2 e2) dates) df.
Proof.
  intros Hs He. unfold loc. rewrite map_map. apply map_ext.
  intros [k s]. cbn [fst snd]. f_equal.
  assert (Hsub : forall t, in_range s2 e2 t = true -> in_range s1 e1 t = true).
  { intros [t|]; cbn; [|discriminate].
    rewrite !andb_true_iff, !Z.leb_le. lia. }
  destruct s as [l|l|l]; cbn [Series_loc]; f_equal; now apply select_select.
Qed.

(** X11.  Filtering a filtered table to a date range that lies inside the
    first one gives what filtering the loaded table to that range gives;
    in particular filtering twice to the same range changes nothing. *)
Theorem X11_filter_within_filter
        (pd_Timestamp : string -> result (option Z))
        (df : DataFrame) (dates : list (option Z))
        (a1 b1 a2 b2 : string) (s1 e1 s2 e2 : Z) :
  getitem df "Start date" = Ok (SDatetime dates) ->
  pd_Timestamp a1 = Ok (Some s1) -> pd_Timestamp b1 = Ok (Some e1) ->
  pd_Timestamp a2 = Ok (Some s2) -> pd_Timestamp b2 = Ok (Some e2) ->
  (s1 <= s2)%Z -> (e2 <= e1)%Z ->
  exists d1,
    filter_by_date pd_Timestamp df a1 b1 = Ok d1 /\
    filter_by_date pd_Timestamp d1 a2 b2 = filter_by_date pd_Timestamp df a2 b2 /\
    filter_by_date pd_Timestamp d1 a1 b1 = Ok d1.
Proof.
  intros Hd Ha1 Hb1 Ha2 Hb2 Hs He.
  exists (loc (map (in_range s1 e1) dates) df).
  assert (Hd1 : getitem (loc (map (in_range s1 e1) dates) df) "Start date" =
                Ok (SDatetime (select (map (in_range s1 e1) dates) dates))).
  { apply (getitem_loc _ df "Start date" Hd). }
  split; [|split].
  - exact (filter_by_date_loc pd_Timestamp df a1 b1 Hd Ha1 Hb1).
  - rewrite (filter_by_date_loc pd_Timestamp _ a2 b2 Hd1 Ha2 Hb2).
    rewrite (filter_by_date_loc pd_Timestamp df a2 b2 Hd Ha2 Hb2).
    f_equal. now apply loc_loc_in_range.
  - rewrite (filter_by_date_loc pd_Timestamp _ a1 b1 Hd1 Ha1 Hb1).
    f_equal. apply loc_loc_in_range; lia.
Qed.

Lemma X11_filter_within_filter_witness :
  exists d1,
    filter_by_date Iso.Timestamp Sample.typed_prices "2024-11-01" "2024-11-03" = Ok d1 /\
    filter_by_date Iso.Timestamp d1 "2024-11-02" "2024-11-02" =
    filter_by_date Iso.Timestamp Sample.typed_prices "2024-11-02" "2024-11-02" /\
    filter_by_date Iso.Timestamp d1 "2024-11-01" "2024-11-03" = Ok d1.
Proof.
  apply (X11_filter_within_filter Iso.Timestamp Sample.typed_prices
           [Some 1730419200000000000%Z; Some 1730505600000000000%Z;
            Some 1730592000000000000%Z]
           "2024-11-01" "2024-11-03" "2024-11-02" "2024-11-02"
           1730419200000000000 1730592000000000000
           1730505600000000000 1730505600000000000);
    try reflexivity; lia.
Defined.

(** ** The initial date range *)

Lemma datetime_min_least (dates : list (option Z)) (lo t : Z) :
  Layout.datetime_min dates = Some lo -> In (Some t) dates -> (lo <= t)%Z.
Proof.
  revert lo; induction dates as [|d dates IH]; intros lo H Hin; [contradiction|].
  cbn [Layout.datetime_min fold_right] in H.
  fold (Layout.datetime_min dates) in H.
  destruct d as [x|]; cbn [Layout.time_min] in H.
  - destruct (Layout.datetime_min dates) as [m|] eqn:E.
    + injection H as <-. destruct Hin as [[= ->]|Hin]; [lia|].
      specialize (IH m eq_refl Hin). lia.
    + injection H as <-. destruct Hin as [[= ->]|Hin]; [lia|].
      exfalso. clear IH. induction dates as [|[y|] dates IH']; cbn in *;
        try contradiction.
      * destruct (fold_right Layout.time_min None dates); discriminate.
      * destruct Hin as [Hin|Hin]; [discriminate|auto].
  - destruct Hin as [Hin|Hin]; [discriminate|auto].
Qed.

Lemma datetime_max_greatest (dates : list (option Z)) (hi t : Z) :
  Layout.datetime_max dates = Some hi -> In (Some t) dates -> (t <= hi)%Z.
Proof.
  revert hi; induction dates as [|d dates IH]; intros hi H Hin; [contradiction|].
  cbn [Layout.datetime_max fold_right] in H.
  fold (Layout.datetime_max dates) in H.
  destruct d as [x|]; cbn [Layout.time_max] in H.
  - destruct (Layout.datetime_max dates) as [m|] eqn:E.
    + injection H as <-. destruct Hin as [[= ->]|Hin]; [lia|].
      specialize (IH m eq_refl Hin). lia.
    + injection H as <-. destruct Hin as [[= ->]|Hin]; [lia|].
      exfalso. clear IH. induction dates as [|[y|] dates IH']; cbn in *;
        try contradiction.
      * destruct (fold_right Layout.time_max None dates); discriminate.
      * destruct Hin as [Hin|Hin]; [discriminate|auto].
  - destruct Hin as [Hin|Hin]; [discriminate|auto].
Qed.

Lemma select_all {A B : Type} (p : A -> bool) (keys : list A) (l : list B) :
  Forall (fun k => p k = true) keys ->
  List.length l = List.length keys ->
  select (map p keys) l = l.
Proof.
  intros H. revert l; induction H as [|k keys Hk H IH]; intros [|x l] Hlen;
    cbn [map select]; try reflexivity; try discriminate.
  rewrite Hk, IH; auto.
Qed.

Lemma loc_all (df : DataFrame) (dates : list (option Z)) :
  Forall (fun t => is_timestamp t = true) dates ->
  rectangular (List.length dates) df ->
  loc (map is_timestamp dates) df = df.
Proof.
  intros Hall Hrect. unfold loc. rewrite <- (map_id df) at 2.
  apply map_ext_in. intros [k s] Hin. cbn [fst snd]. f_equal.
  unfold rectangular in Hrect. rewrite Forall_forall in Hrect.
  specialize (Hrect _ Hin). cbn [snd] in Hrect. unfold len in Hrect.
  destruct s as [l|l|l]; cbn [Series_loc cells] in *; f_equal;
    rewrite length_map in Hrect; now apply select_all.
Qed.

(** X12.  The date picker of a tab starts on the least and the greatest
    timestamp of the [Start date] column.  With that range the filter of
    the callbacks keeps every row that has a timestamp, so the whole table
    when no date is missing. *)
Theorem X12_initial_date_range
        (pd_Timestamp : string -> result (option Z))
        (df : DataFrame) (dates : list (option Z)) :
  getitem df "Start date" = Ok (SDatetime dates) ->
  Layout.date_picker df =
  Ok (Layout.mkDatePickerRange
        (scalar_of_time (Layout.datetime_min dates))
        (scalar_of_time (Layout.datetime_max dates))
        (scalar_of_time (Layout.datetime_min dates))
        (scalar_of_time (Layout.datetime_max dates))) /\
  forall a b lo hi,
    Layout.datetime_min dates = Some lo ->
    Layout.datetime_max dates = Some hi ->
    pd_Timestamp a = Ok (Some lo) ->
    pd_Timestamp b = Ok (Some hi) ->
    filter_by_date pd_Timestamp df a b = Ok (loc (map is_timestamp dates) df) /\
    (Forall (fun t => is_timestamp t = true) dates ->
     rectangular (List.length dates) df ->
     filter_by_date pd_Timestamp df a b = Ok df).
Proof.
  intros Hd. split.
  - unfold Layout.date_picker. rewrite Hd. reflexivity.
  - intros a b lo hi Hlo Hhi Ha Hb.
    assert (Hf : filter_by_date pd_Timestamp df a b =
                 Ok (loc (map is_timestamp dates) df)).
    { rewrite (filter_by_date_loc pd_Timestamp df a b Hd Ha Hb).
      do 2 f_equal. apply map_ext_in. intros [t|] Hin; [|reflexivity].
      cbn. apply andb_true_iff. rewrite !Z.leb_le. split.
      - now apply datetime_min_least with (dates := dates).
      - now apply datetime_max_greatest with (dates := dates). }
    split; [exact Hf|].
    intros Hall Hrect. rewrite Hf. f_equal. now apply loc_all.
Qed.

Lemma X12_initial_date_range_witness :
  filter_by_date Iso.Timestamp Sample.typed_prices "2024-11-01" "2024-11-03" =
  Ok Sample.typed_prices.
Proof.
  refine (proj2 (proj2 (X12_initial_date_range Iso.Timestamp Sample.typed_prices
                   [Some 1730419200000000000%Z; Some 1730505600000000000%Z;
                    Some 1730592000000000000%Z] eq_refl)
                   "2024-11-01" "2024-11-03"
                   1730419200000000000%Z 1730592000000000000%Z
                   eq_refl eq_refl eq_refl eq_refl) _ _).
  - repeat constructor.
  - repeat constructor.
Defined.

(** ** What a callback returns *)

Lemma Forall2_map_Forall {A B : Type} (R : A -> B -> Prop) (g : B -> A)
      (Q : B -> Prop) (l : list A) (bs : list B) :
  (forall a b, R a b -> g b = a /\ Q b) ->
  Forall2 R l bs -> map g bs = l /\ Forall Q bs.
Proof.
  intros H HF. induction HF as [|a b l bs Hab _ [IH1 IH2]].
  - split; [reflexivity|constructor].
  - destruct (H a b Hab) as [Hg HQ]. split.
    + cbn [map]. now rewrite Hg, IH1.
    + now constructor.
Qed.

Lemma filter_by_date_Ok (pd_Timestamp : string -> result (option Z))
      (df dff : DataFrame) (a b : string) :
  filter_by_date pd_Timestamp df a b = Ok dff ->
  exists mask s, getitem df "Start date" = Ok s /\ dff = loc mask df.
Proof.
  unfold filter_by_date. intros H.
  apply bind_Ok in H as (mask & Hm & H). injection H as <-.
  unfold date_mask in Hm. apply bind_Ok in Hm as (s & Hs & _).
  now exists mask, s.
Qed.

Section Callbacks.

Variable pd_to_datetime : Series -> result (list (option Z)).
Variable pd_Timestamp : string -> result (option Z).

Lemma update_generation_graph_run (sel : list string) (a b : string) (w : World) :
  update_generation_graph pd_to_datetime pd_Timestamp sel a b w =
  (df <- fst (load_generation_data pd_to_datetime w) ;;
   df_filtered <- filter_by_date pd_Timestamp df a b ;;
   fig <- generation_figure df_filtered sel ;;
   summary_stats <- generation_summary df_filtered sel ;;
   Ok (fig, summary_stats), w).
Proof.
  unfold update_generation_graph, io_bind, lift.
  rewrite load_generation_data_run. cbn [fst].
  now destruct (match files w generation_csv with
                | Some df => _ | None => _ end).
Qed.

Lemma update_price_graph_run (sel : list string) (a b : string) (w : World) :
  update_price_graph pd_to_datetime pd_Timestamp sel a b w =
  (df <- fst (load_price_data pd_to_datetime w) ;;
   df_filtered <- filter_by_date pd_Timestamp df a b ;;
   fig <- price_figure df_filtered sel ;;
   stats <- price_stats df_filtered sel ;;
   Ok (fig, stats), w).
Proof.
  unfold update_price_graph, io_bind, lift.
  rewrite load_price_data_run. cbn [fst].
  now destruct (match files w price_csv with
                | Some df => _ | None => _ end).
Qed.

End Callbacks.

(** X13.  When the generation callback returns, the process state is as
    before, and the figure and the summary each have one entry per
    selected source, in the order of the selection: the trace of a source
    plots its column of the filtered table against the filtered dates in
    the color of the source, and its summary entry is the sum of that
    column. *)
Theorem X13_generation_graph_output
        (pd_to_datetime : Series -> result (list (option Z)))
        (pd_Timestamp : string -> result (option Z))
        (sel : list string) (a b : string) (w w' : World)
        (fig : list Trace) (stats : list (string * Py.float)) :
  update_generation_graph pd_to_datetime pd_Timestamp sel a b w
  = (Ok (fig, stats), w') ->
  w' = w /\
  map trace_name fig = sel /\
  map fst stats = sel /\
  exists df dff,
    fst (load_generation_data pd_to_datetime w) = Ok df /\
    filter_by_date pd_Timestamp df a b = Ok dff /\
    Forall (fun tr =>
              getitem dff "Start date" = Ok (trace_x tr) /\
              getitem dff (trace_name tr) = Ok (trace_y tr) /\
              exists c, dict_get colors (trace_name tr) = Ok c /\
                        trace_fillcolor tr = Some c) fig /\
    Forall (fun st => exists s, getitem dff (fst st) = Ok s /\
                                Pandas.sum s = Ok (snd st)) stats.
Proof.
  rewrite update_generation_graph_run. intros [= H <-].
  apply bind_Ok in H as (df & Hdf & H).
  apply bind_Ok in H as (dff & Hdff & H).
  apply bind_Ok in H as (fig' & Hfig & H).
  apply bind_Ok in H as (stats' & Hstats & H). injection H as <- <-.
  apply mapM_Ok_Forall2 in Hfig, Hstats.
  apply Forall2_map_Forall
    with (g := trace_name)
         (Q := fun tr =>
                 getitem dff "Start date" = Ok (trace_x tr) /\
                 getitem dff (trace_name tr) = Ok (trace_y tr) /\
                 exists c, dict_get colors (trace_name tr) = Ok c /\
                           trace_fillcolor tr = Some c) in Hfig.
  - apply Forall2_map_Forall
      with (g := fst)
           (Q := fun st => exists s, getitem dff (fst st) = Ok s /\
                                     Pandas.sum s = Ok (snd st)) in Hstats.
    + destruct Hfig as [Hf1 Hf2], Hstats as [Hs1 Hs2].
      repeat split; auto. now exists df, dff.
    + intros source st Hb.
      apply bind_Ok in Hb as (s & Hs & Hb).
      apply bind_Ok in Hb as (t & Ht & Hb). injection Hb as <-.
      split; [reflexivity|]. now exists s.
  - intros source tr Hb.
    apply bind_Ok in Hb as (x & Hx & Hb).
    apply bind_Ok in Hb as (y & Hy & Hb).
    apply bind_Ok in Hb as (c & Hc & Hb). injection Hb as <-.
    cbn. repeat split; auto. now exists c.
Qed.

Lemma X13_generation_graph_output_witness :
  exists fig stats,
    update_generation_graph Iso.to_datetime Iso.Timestamp ["Nuclear"; "Biomass"]
      "2024-11-01" "2024-11-02" (Sample.world (Sample.price_frame Sample.france_full))
    = (Ok (fig, stats), Sample.world (Sample.price_frame Sample.france_full)) /\
    map trace_name fig = ["Nuclear"; "Biomass"] /\
    map fst stats = ["Nuclear"; "Biomass"].
Proof.
  destruct (update_generation_graph Iso.to_datetime Iso.Timestamp
              ["Nuclear"; "Biomass"] "2024-11-01" "2024-11-02"
              (Sample.world (Sample.price_frame Sample.france_full)))
    as [[[fig stats]|e] w'] eqn:E; [|vm_compute in E; discriminate].
  destruct (X13_generation_graph_output _ _ _ _ _ _ _ _ _ E)
    as (-> & H1 & H2 & _).
  now exists fig, stats.
Defined.

(** X14.  When the price callback returns, the process state is as
    before, and the figure and the statistics each have one entry per
    selected country, in the order of the selection: the trace of a
    country plots its column of the filtered table against the filtered
    dates, and its statistics are the mean, the maximum and the minimum
    of that column. *)
Theorem X14_price_graph_output
        (pd_to_datetime : Series -> result (list (option Z)))
        (pd_Timestamp : string -> result (option Z))
        (sel : list string) (a b : string) (w w' : World)
        (fig : list Trace) (stats : list (string * PriceStats)) :
  update_price_graph pd_to_datetime pd_Timestamp sel a b w
  = (Ok (fig, stats), w') ->
  w' = w /\
  map trace_name fig = sel /\
  map fst stats = sel /\
  exists df dff,
    fst (load_price_data pd_to_datetime w) = Ok df /\
    filter_by_date pd_Timestamp df a b = Ok dff /\
    Forall (fun tr =>
              getitem dff "Start date" = Ok (trace_x tr) /\
              getitem dff (trace_name tr) = Ok (trace_y tr) /\
              trace_fillcolor tr = None) fig /\
    Forall (fun st => exists s,
                getitem dff (fst st) = Ok s /\
                Pandas.mean s = Ok (avg_price (snd st)) /\
                Pandas.max s = Ok (max_price (snd st)) /\
                Pandas.min s = Ok (min_price (snd st))) stats.
Proof.
  rewrite update_price_graph_run. intros [= H <-].
  apply bind_Ok in H as (df & Hdf & H).
  apply bind_Ok in H as (dff & Hdff & H).
  apply bind_Ok in H as (fig' & Hfig & H).
  apply bind_Ok in H as (stats' & Hstats & H). injection H as <- <-.
  apply mapM_Ok_Forall2 in Hfig, Hstats.
  apply Forall2_map_Forall
    with (g := trace_name)
         (Q := fun tr =>
                 getitem dff "Start date" = Ok (trace_x tr) /\
                 getitem dff (trace_name tr) = Ok (trace_y tr) /\
                 trace_fillcolor tr = None) in Hfig.
  - apply Forall2_map_Forall
      with (g := fst)
           (Q := fun st => exists s,
                     getitem dff (fst st) = Ok s /\
                     Pandas.mean s = Ok (avg_price (snd st)) /\
                     Pandas.max s = Ok (max_price (snd st)) /\
                     Pandas.min s = Ok (min_price (snd st))) in Hstats.
    + destruct Hfig as [Hf1 Hf2], Hstats as [Hs1 Hs2].
      repeat split; auto. now exists df, dff.
    + intros country st Hb.
      apply bind_Ok in Hb as (s & Hs & Hb).
      apply bind_Ok in Hb as (avg & Havg & Hb).
      apply bind_Ok in Hb as (s1 & Hs1 & Hb).
      apply bind_Ok in Hb as (mx & Hmx & Hb).
      apply bind_Ok in Hb as (s2 & Hs2 & Hb).
      apply bind_Ok in Hb as (mn & Hmn & Hb). injection Hb as <-.
      assert (s1 = s) by congruence. assert (s2 = s) by congruence. subst.
      split; [reflexivity|]. now exists s.
  - intros country tr Hb.
    apply bind_Ok in Hb as (x & Hx & Hb).
    apply bind_Ok in Hb as (y & Hy & Hb). injection Hb as <-.
    cbn. repeat split; auto.
Qed.

Lemma X14_price_graph_output_witness :
  exists fig stats,
    update_price_graph Iso.to_datetime Iso.Timestamp ["France"; "Germany/Luxembourg"]
      "2024-11-01" "2024-11-02" (Sample.world (Sample.price_frame Sample.france_full))
    = (Ok (fig, stats), Sample.world (Sample.price_frame Sample.france_full)) /\
    map trace_name fig = ["France"; "Germany/Luxembourg"] /\
    map fst stats = ["France"; "Germany/Luxembourg"].
Proof.
  destruct (update_price_graph Iso.to_datetime Iso.Timestamp
              ["France"; "Germany/Luxembourg"] "2024-11-01" "2024-11-02"
              (Sample.world (Sample.price_frame Sample.france_full)))
    as [[[fig stats]|e] w'] eqn:E; [|vm_compute in E; discriminate].
  destruct (X14_price_graph_output _ _ _ _ _ _ _ _ _ E)
    as (-> & H1 & H2 & _).
  now exists fig, stats.
Defined.

(** ** Selections a callback refuses or accepts *)

Lemma getitem_Ok_or_KeyError (df : DataFrame) (k : string) :
  succeeds (getitem df k) \/ getitem df k = Raise KeyError.
Proof.
  induction df as [|[k0 s0] df IH]; cbn [getitem]; [now right|].
  destruct (String.eqb k0 k); [left; now exists s0|exact IH].
Qed.

Lemma dict_get_Ok_or_KeyError {V : Type} (d : list (string * V)) (k : string) :
  succeeds (dict_get d k) \/ dict_get d k = Raise KeyError.
Proof.
  induction d as [|[k0 v0] d IH]; cbn [dict_get]; [now right|].
  destruct (String.eqb k0 k); [left; now exists v0|exact IH].
Qed.

Lemma dict_get_keys {V : Type} (d : list (string * V)) (k : string) :
  In k (Layout.keys d) <-> succeeds (dict_get d k).
Proof.
  unfold Layout.keys. induction d as [|[k0 v0] d IH]; cbn [map dict_get fst In].
  - split; [tauto|]. intros [v H]. discriminate.
  - destruct (String.eqb_spec k0 k) as [->|Hne].
    + split; [now exists v0|auto].
    + rewrite <- IH. split; [intros [H|H]; [contradiction|assumption]|auto].
Qed.

Lemma generation_trace_Ok_or_KeyError (dff : DataFrame) (source : string) :
  let body :=
    (x <- getitem dff "Start date" ;;
     y <- getitem dff source ;;
     c <- dict_get colors source ;;
     Ok (mkTrace source x y (Some c))) in
  succeeds body \/ body = Raise KeyError.
Proof.
  cbn zeta.
  destruct (getitem_Ok_or_KeyError dff "Start date") as [[x ->]| ->];
    [|now right]. cbn [bind].
  destruct (getitem_Ok_or_KeyError dff source) as [[y ->]| ->];
    [|now right]. cbn [bind].
  destruct (dict_get_Ok_or_KeyError colors source) as [[c ->]| ->];
    [|now right]. left. eexists. reflexivity.
Qed.

Lemma price_trace_Ok_or_KeyError (dff : DataFrame) (country : string) :
  let body :=
    (x <- getitem dff "Start date" ;;
     y <- getitem dff country ;;
     Ok (mkTrace country x y None)) in
  succeeds body \/ body = Raise KeyError.
Proof.
  cbn zeta.
  destruct (getitem_Ok_or_KeyError dff "Start date") as [[x ->]| ->];
    [|now right]. cbn [bind].
  destruct (getitem_Ok_or_KeyError dff country) as [[y ->]| ->];
    [|now right]. left. eexists. reflexivity.
Qed.

Lemma filtered_columns (pd_Timestamp : string -> result (option Z))
      (df dff : DataFrame) (a b : string) :
  filter_by_date pd_Timestamp df a b = Ok dff ->
  columns dff = columns df /\ succeeds (getitem dff "Start date").
Proof.
  intros H. destruct (filter_by_date_Ok pd_Timestamp df dff a b H)
    as (mask & s & Hs & ->).
  split; [apply columns_loc|].
  exists (Series_loc mask s). exact (getitem_loc mask df "Start date" Hs).
Qed.

(** X15.  A selection that names something else than a column of the
    loaded table makes either callback raise [KeyError]; so does, for the
    generation callback, a source without a color.  The process state is
    left as it is. *)
Theorem X15_unknown_selection
        (pd_to_datetime : Series -> result (list (option Z)))
        (pd_Timestamp : string -> result (option Z))
        (sel : list string) (a b : string) (w : World)
        (df dff : DataFrame) (c : string) :
  In c sel ->
  filter_by_date pd_Timestamp df a b = Ok dff ->
  (fst (load_generation_data pd_to_datetime w) = Ok df ->
   ~ In c (columns df) \/ ~ In c (Layout.keys colors) ->
   update_generation_graph pd_to_datetime pd_Timestamp sel a b w
   = (Raise KeyError, w)) /\
  (fst (load_price_data pd_to_datetime w) = Ok df ->
   ~ In c (columns df) ->
   update_price_graph pd_to_datetime pd_Timestamp sel a b w
   = (Raise KeyError, w)).
Proof.
  intros Hin Hf.
  destruct (filtered_columns pd_Timestamp df dff a b Hf) as [Hcols [x Hx]].
  split.
  - intros Hload Hc. rewrite update_generation_graph_run, Hload. cbn [bind].
    rewrite Hf. cbn [bind]. unfold generation_figure.
    rewrite (mapM_raises _ KeyError sel c); [reflexivity| |exact Hin|].
    + intros source _. apply generation_trace_Ok_or_KeyError.
    + rewrite Hx. cbn [bind]. destruct Hc as [Hc|Hc].
      * rewrite <- Hcols in Hc. now rewrite (getitem_absent dff c Hc).
      * destruct (getitem_Ok_or_KeyError dff c) as [[y ->]| ->];
          [|reflexivity]. cbn [bind].
        destruct (dict_get_Ok_or_KeyError colors c) as [Hok| ->];
          [|reflexivity].
        apply dict_get_keys in Hok. contradiction.
  - intros Hload Hc. rewrite update_price_graph_run, Hload. cbn [bind].
    rewrite Hf. cbn [bind]. unfold price_figure.
    rewrite (mapM_raises _ KeyError sel c); [reflexivity| |exact Hin|].
    + intros country _. apply price_trace_Ok_or_KeyError.
    + rewrite Hx. cbn [bind]. rewrite <- Hcols in Hc.
      now rewrite (getitem_absent dff c Hc).
Qed.

Lemma X15_unknown_selection_witness :
  update_price_graph Iso.to_datetime Iso.Timestamp ["Germany/Luxembourg"; "Spain"]
    "2024-11-01" "2024-11-02" (Sample.world (Sample.price_frame Sample.france_full))
  = (Raise KeyError, Sample.world (Sample.price_frame Sample.france_full)).
Proof.
  let r := eval vm_compute in
      (fst (load_price_data Iso.to_datetime
              (Sample.world (Sample.price_frame Sample.france_full)))) in
  lazymatch r with Ok ?d => pose (df := d) end.
  let r := eval vm_compute in
      (filter_by_date Iso.Timestamp df "2024-11-01" "2024-11-02") in
  lazymatch r with Ok ?d => pose (dff := d) end.
  apply (proj2 (X15_unknown_selection Iso.to_datetime Iso.Timestamp
                  ["Germany/Luxembourg"; "Spain"] "2024-11-01" "2024-11-02"
                  (Sample.world (Sample.price_frame Sample.france_full))
                  df dff "Spain"
                  (or_intror (or_introl eq_refl))
                  ltac:(vm_compute; reflexivity))).
  - vm_compute. reflexivity.
  - cbn. intros H. repeat (destruct H as [H|H]; [discriminate|]). exact H.
Defined.

Lemma colors_are_categories (c : string) :
  In c (Layout.keys colors) -> is_category c = true.
Proof.
  cbn. intros H.
  repeat (destruct H as [<-|H]; [reflexivity|]). contradiction.
Qed.

(** X16.  The generation callback raises nothing when the file loads, the
    two dates convert and every selected source is a key of [colors] and
    a column of the loaded table. *)
Theorem X16_generation_graph_succeeds
        (pd_to_datetime : Series -> result (list (option Z)))
        (pd_Timestamp : string -> result (option Z))
        (sel : list string) (a b : string) (w : World)
        (raw df dff : DataFrame) :
  files w generation_csv = Some raw ->
  process_generation_data pd_to_datetime raw = Ok df ->
  filter_by_date pd_Timestamp df a b = Ok dff ->
  (forall c, In c sel -> In c (Layout.keys colors) /\ In c (columns df)) ->
  succeeds (fst (update_generation_graph pd_to_datetime pd_Timestamp sel a b w)).
Proof.
  intros Hfile Hload Hf Hsel.
  rewrite update_generation_graph_run, load_generation_data_run, Hfile.
  cbn [fst]. rewrite Hload. cbn [bind]. rewrite Hf. cbn [bind].
  destruct (filter_by_date_Ok pd_Timestamp df dff a b Hf) as (mask & s & Hs & ->).
  assert (Hfig : succeeds (generation_figure (loc mask df) sel)).
  { apply mapM_succeeds. intros c Hc. destruct (Hsel c Hc) as [Hkey Hcol].
    rewrite (getitem_loc mask df "Start date" Hs). cbn [bind].
    apply getitem_columns in Hcol as [y Hy].
    rewrite (getitem_loc mask df c Hy). cbn [bind].
    apply dict_get_keys in Hkey as [col ->]. eexists. reflexivity. }
  assert (Hsum : succeeds (generation_summary (loc mask df) sel)).
  { apply mapM_succeeds. intros c Hc. destruct (Hsel c Hc) as [Hkey Hcol].
    apply getitem_columns in Hcol as [y Hy].
    destruct (generation_load_numeric pd_to_datetime raw c Hload
                (colors_are_categories c Hkey) Hy) as [l ->].
    rewrite (getitem_loc mask df c Hy). cbn. eexists. reflexivity. }
  destruct Hfig as [fig ->], Hsum as [stats ->]. cbn [bind].
  now exists (fig, stats).
Qed.

Lemma X16_generation_graph_succeeds_witness :
  succeeds (fst (update_generation_graph Iso.to_datetime Iso.Timestamp
                   ["Nuclear"; "Biomass"] "2024-11-01" "2024-11-02"
                   (Sample.world (Sample.price_frame Sample.france_full)))).
Proof.
  eapply (X16_generation_graph_succeeds Iso.to_datetime Iso.Timestamp
            ["Nuclear"; "Biomass"] "2024-11-01" "2024-11-02"
            (Sample.world (Sample.price_frame Sample.france_full))
            Sample.generation_frame).
  - reflexivity.
  - vm_compute. reflexivity.
  - vm_compute. reflexivity.
  - intros c [<-|[<-|[]]]; split; cbn; tauto.
Defined.

(** X17.  The countries the dropdown of the price tab offers are the
    columns of the initial price table other than the two date columns,
    in the order of the table; any selection among them gives the price
    callback a figure without [KeyError] on a filtered table with the
    same columns. *)
Theorem X17_price_options
        (pd_Timestamp : string -> result (option Z))
        (df dff : DataFrame) (tab : Layout.PriceTab)
        (sel : list string) (a b : string) :
  Layout.generate_price_tab df = Ok tab ->
  filter_by_date pd_Timestamp df a b = Ok dff ->
  (forall c, In c sel -> In c (Layout.country_selector_options tab)) ->
  Layout.country_selector_options tab = filter is_category (columns df) /\
  Layout.country_selector_value tab = ["Germany/Luxembourg"] /\
  succeeds (price_figure dff sel).
Proof.
  intros Htab Hf Hsel. unfold Layout.generate_price_tab in Htab.
  apply bind_Ok in Htab as (picker & _ & Htab). injection Htab as <-.
  cbn [Layout.country_selector_options Layout.country_selector_value] in *.
  split; [reflexivity|]. split; [reflexivity|].
  destruct (filter_by_date_Ok pd_Timestamp df dff a b Hf) as (mask & s & Hs & ->).
  apply mapM_succeeds. intros c Hc.
  specialize (Hsel c Hc). apply filter_In in Hsel as [Hcol _].
  rewrite (getitem_loc mask df "Start date" Hs). cbn [bind].
  apply getitem_columns in Hcol as [y Hy].
  rewrite (getitem_loc mask df c Hy). eexists. reflexivity.
Qed.

Lemma X17_price_options_witness :
  exists tab,
    Layout.generate_price_tab Sample.typed_prices = Ok tab /\
    Layout.country_selector_options tab = filter is_category (columns Sample.typed_prices) /\
    Layout.country_selector_value tab = ["Germany/Luxembourg"] /\
    succeeds (price_figure Sample.typed_prices ["X"]).
Proof.
  destruct (Layout.generate_price_tab Sample.typed_prices) as [tab|e] eqn:E;
    [|vm_compute in E; discriminate].
  exists tab. split; [reflexivity|].
  apply (X17_price_options Iso.Timestamp Sample.typed_prices Sample.typed_prices
           tab ["X"] "2024-11-01" "2024-11-03" E).
  - vm_compute. reflexivity.
  - injection E as <-. intros c [<-|[]]. cbn. tauto.
Defined.

(** X18.  The price callback raises nothing when the file loads, the two
    dates convert and every selected country is a float column of the
    loaded table. *)
Theorem X18_price_graph_succeeds
        (pd_to_datetime : Series -> result (list (option Z)))
        (pd_Timestamp : string -> result (option Z))
        (sel : list string) (a b : string) (w : World) (df dff : DataFrame) :
  fst (load_price_data pd_to_datetime w) = Ok df ->
  filter_by_date pd_Timestamp df a b = Ok dff ->
  (forall c, In c sel -> exists l, getitem df c = Ok (SFloat l)) ->
  succeeds (fst (update_price_graph pd_to_datetime pd_Timestamp sel a b w)).
Proof.
  intros Hload Hf Hsel.
  rewrite update_price_graph_run, Hload. cbn [fst bind]. rewrite Hf. cbn [bind].
  destruct (filter_by_date_Ok pd_Timestamp df dff a b Hf) as (mask & s & Hs & ->).
  assert (Hfig : succeeds (price_figure (loc mask df) sel)).
  { apply mapM_succeeds. intros c Hc. destruct (Hsel c Hc) as [l Hl].
    rewrite (getitem_loc mask df "Start date" Hs). cbn [bind].
    rewrite (getitem_loc mask df c Hl). eexists. reflexivity. }
  assert (Hstats : succeeds (price_stats (loc mask df) sel)).
  { apply mapM_succeeds. intros c Hc. destruct (Hsel c Hc) as [l Hl].
    rewrite (getitem_loc mask df c Hl). cbn. eexists. reflexivity. }
  destruct Hfig as [fig ->], Hstats as [stats ->]. cbn [bind].
  now exists (fig, stats).
Qed.

Lemma X18_price_graph_succeeds_witness :
  succeeds (fst (update_price_graph Iso.to_datetime Iso.Timestamp
                   ["France"; "Germany/Luxembourg"] "2024-11-01" "2024-11-02"
                   (Sample.world (Sample.price_frame Sample.france_full)))).
Proof.
  let r := eval vm_compute in
      (fst (load_price_data Iso.to_datetime
              (Sample.world (Sample.price_frame Sample.france_full)))) in
  lazymatch r with Ok ?d => pose (df := d) end.
  let r := eval vm_compute in
      (filter_by_date Iso.Timestamp df "2024-11-01" "2024-11-02") in
  lazymatch r with Ok ?d => pose (dff := d) end.
  apply (X18_price_graph_succeeds Iso.to_datetime Iso.Timestamp
           ["France"; "Germany/Luxembourg"] "2024-11-01" "2024-11-02"
           (Sample.world (Sample.price_frame Sample.france_full)) df dff).
  - vm_compute. reflexivity.
  - vm_compute. reflexivity.
  - intros c [<-|[<-|[]]]; eexists; vm_compute; reflexivity.
Defined.
